(** * Visual rendering of local files: a shallow embedding

    The development follows [core/visual_rendering.py] and
    [system/local_tools.py].  The imaging library, the PDF tools, the HTML
    typesetter and the file system are capabilities of a [World]; every call
    to one of them is recorded in a trace, and a Python exception is the left
    summand of the outcome.  Only exceptions derived from [Exception] are
    modelled, the ones the handlers of the program catch.  The entry point is
    a coroutine: one call is followed to its completion, the awaited HTML
    conversion taking its place in the sequence. *)

From Stdlib Require Import ZArith Lia Ascii.
From stdpp Require Import gmap strings pretty list.

Local Open Scope Z_scope.

(** ** Python values *)

(** Values stored in the dictionaries of the program ([info], [common_args]). *)
Inductive pyval :=
| PyInt (z : Z)
| PyStr (s : string).

Definition bytes := list Byte.byte.

(** [Union[bytes, str]]: a byte buffer or a file system path. *)
Inductive source :=
| Bytes (b : bytes)
| Path (p : string).

Definition is_str (x : source) : bool :=
  match x with Path _ => true | Bytes _ => false end.

(** Exceptions derived from [Exception]; [str_exn] is [str(e)]. *)
Inductive exn :=
| RuntimeError (msg : string)
| ImportError (msg : string)
| OtherError (msg : string).

Definition str_exn (e : exn) : string :=
  match e with
  | RuntimeError m | ImportError m | OtherError m => m
  end.

(** [str(n)] for a Python integer. *)
Definition str_int (n : Z) : string := pretty n.

(** Truth value of an optional integer: [None] and [0] are false. *)
Definition truthy (o : option Z) : bool :=
  match o with
  | Some z => negb (z =? 0)
  | None => false
  end.

(** ** Strings *)

Module Str.

(** A Python [str] is held as its UTF-8 bytes.  "/" and the ASCII letters
    never occur inside the encoding of another character, so searching,
    splitting and comparing act on the bytes as they act on the characters. *)

Definition upper_ascii (c : ascii) : ascii :=
  let n := Ascii.N_of_ascii c in
  if ((97 <=? n) && (n <=? 122))%N then Ascii.ascii_of_N (n - 32) else c.

Definition lower_ascii (c : ascii) : ascii :=
  let n := Ascii.N_of_ascii c in
  if ((65 <=? n) && (n <=? 90))%N then Ascii.ascii_of_N (n + 32) else c.

(** Text made of ASCII characters only. *)
Fixpoint is_ascii (s : string) : bool :=
  match s with
  | EmptyString => true
  | String c s' => (Ascii.N_of_ascii c <? 128)%N && is_ascii s'
  end.

Fixpoint map (f : ascii -> ascii) (s : string) : string :=
  match s with
  | EmptyString => EmptyString
  | String c s' => String (f c) (map f s')
  end.

(** What [s.upper()] and [s.lower()] do to ASCII text. *)
Definition ascii_upper : string -> string := map upper_ascii.
Definition ascii_lower : string -> string := map lower_ascii.

(** [sub in s]. *)
Fixpoint contains (sub s : string) : bool :=
  String.prefix sub s ||
  match s with
  | EmptyString => false
  | String _ s' => contains sub s'
  end.

(** [s.split(sep)] for a one-character separator. *)
Fixpoint split (sep : ascii) (s : string) : list string :=
  match s with
  | EmptyString => [EmptyString]
  | String c s' =>
      if Ascii.eqb c sep then EmptyString :: split sep s'
      else match split sep s' with
           | w :: ws => String c w :: ws
           | [] => [String c EmptyString]
           end
  end.

(** [l[-1]] on the result of a split, which is never empty. *)
Definition last_field (l : list string) : string := List.last l EmptyString.

Definition startswith (s pre : string) : bool := String.prefix pre s.

End Str.

(** ** Bitmaps and result items *)

(** A decoded image: its [size] attribute and its pixel data. *)
Record bitmap := Bitmap { im_size : Z * Z; im_pixels : bytes }.

(** The items of a result list: what [Image(data, format).to_image_content()]
    carries, or a plain string. *)
Inductive content :=
| ImageContent (data : bytes) (format : string)
| Text (s : string).

(** ** Capabilities and their trace *)

Inductive event :=
| Ev_exists (path : string)
| Ev_isfile (path : string)
| Ev_guess_type (path : string)
| Ev_read_text (path : string)
| Ev_import_weasyprint
| Ev_write_pdf (html : string)
| Ev_open (input : source)
| Ev_thumbnail (im : bitmap) (size : Z * Z)
| Ev_save (im : bitmap) (fmt : string)
| Ev_pdfinfo_from_path (p : string)
| Ev_pdfinfo_from_bytes (b : bytes)
| Ev_convert_from_path (p : string) (kwargs : gmap string pyval)
| Ev_convert_from_bytes (b : bytes) (kwargs : gmap string pyval)
| Ev_log_error (msg : string).

Record World := {
  os_path_exists : string -> bool;
  os_path_isfile : string -> bool;
  (** the first component of [mimetypes.guess_type(path)], or what it raises *)
  mimetypes_guess_type : string -> exn + option string;
  (** [open(path, "r", encoding="utf-8").read()] *)
  read_text : string -> exn + string;
  (** [import weasyprint] *)
  import_weasyprint : exn + unit;
  (** [weasyprint.HTML(string=html).write_pdf(presentational_hints=True)] *)
  write_pdf : string -> exn + bytes;
  (** [PILImage.open] on a path or on [io.BytesIO(bytes)] *)
  PIL_open : source -> exn + bitmap;
  (** [image.thumbnail(size, LANCZOS)]: the image after the in-place update *)
  PIL_thumbnail : bitmap -> Z * Z -> exn + bitmap;
  (** [image.save(buffer, format=fmt)] followed by [buffer.getvalue()] *)
  PIL_save : bitmap -> string -> exn + bytes;
  pdfinfo_from_path : string -> exn + gmap string pyval;
  pdfinfo_from_bytes : bytes -> exn + gmap string pyval;
  convert_from_path : string -> gmap string pyval -> exn + list bitmap;
  convert_from_bytes : bytes -> gmap string pyval -> exn + list bitmap;
  (** the builtin [int] applied to a string *)
  int_of_str : string -> exn + Z;
  (** [s.upper()] and [s.lower()] on text that is not all ASCII: the case
      tables of the interpreter *)
  unicode_upper : string -> string;
  unicode_lower : string -> string
}.

(** A computation: its outcome and the capability calls it made, in order. *)
Definition M (A : Type) : Type := (exn + A) * list event.

Definition ret {A} (a : A) : M A := (inr a, []).
Definition raise {A} (e : exn) : M A := (inl e, []).
Definition call {A} (ev : event) (r : exn + A) : M A := (r, [ev]).

Definition bind {A B} (m : M A) (f : A -> M B) : M B :=
  match m with
  | (inl e, t) => (inl e, t)
  | (inr a, t) => let '(r, t') := f a in (r, t ++ t')
  end.

(** [try: body except Exception as e: handler(e)] *)
Definition try_except {A} (body : M A) (handler : exn -> M A) : M A :=
  match body with
  | (inl e, t) => let '(r, t') := handler e in (r, t ++ t')
  | (inr a, t) => (inr a, t)
  end.

Definition outcome {A} (m : M A) : exn + A := fst m.
Definition trace {A} (m : M A) : list event := snd m.

Notation "'do' x <- m ; k" := (bind m (fun x => k))
  (at level 10, x name, m at level 100, k at level 200, only parsing).
Notation "'run' m ; k" := (bind m (fun _ => k))
  (at level 10, m at level 100, k at level 200, only parsing).

Definition log_error (msg : string) : M unit := call (Ev_log_error msg) (inr tt).

(** ** The program *)

Section Program.

Variable W : World.

(** [core/visual_rendering.py], [_resize_if_needed].  [not max_dim] holds
    for [None] and for [0]. *)
Definition _resize_if_needed (image : bitmap) (max_dim : option Z) : M bitmap :=
  match max_dim with
  | None => ret image
  | Some d =>
      if negb (truthy (Some d)) then ret image
      else
        let '(w, h) := im_size image in
        if Z.max w h <=? d then ret image
        else call (Ev_thumbnail image (d, d)) (PIL_thumbnail W image (d, d))
  end.

(** [s.upper()] and [s.lower()]: the ASCII maps on ASCII text, the
    interpreter's tables otherwise. *)
Definition str_upper (s : string) : string :=
  if Str.is_ascii s then Str.ascii_upper s else unicode_upper W s.

Definition str_lower (s : string) : string :=
  if Str.is_ascii s then Str.ascii_lower s else unicode_lower W s.

(** The encoding chosen by [render_image]. *)
Definition image_format (image_input : source) (mime_type : string) : string :=
  let fmt := "PNG" in
  if negb (is_str image_input) && Str.contains "/" mime_type then
    let fmt := str_upper (Str.last_field (Str.split "/" mime_type)) in
    if String.eqb fmt "JPG" then "JPEG" else fmt
  else fmt.

Definition render_image (image_input : source) (mime_type : string)
    (max_dimension : option Z) : M (list content) :=
  try_except
    (do pil_img <- call (Ev_open image_input) (PIL_open W image_input);
     do pil_img <- _resize_if_needed pil_img max_dimension;
     let fmt := image_format image_input mime_type in
     do img_bytes <- call (Ev_save pil_img fmt) (PIL_save W pil_img fmt);
     ret [ImageContent img_bytes (str_lower fmt)])
    (fun e =>
       run log_error ("Error rendering image: " +:+ str_exn e);
       ret [Text ("Error rendering image: " +:+ str_exn e)]).

Definition convert_html_to_pdf (html_content : string) : M bytes :=
  do _ <- try_except
            (call Ev_import_weasyprint (import_weasyprint W))
            (fun e =>
               match e with
               | ImportError _ =>
                   raise (ImportError "weasyprint is required for PDF rendering.")
               | _ => raise e
               end);
  call (Ev_write_pdf html_content) (write_pdf W html_content).

(** The keyword arguments built by [convert_pdf_to_images]. *)
Definition common_args (first_page last_page : option Z) (fmt : string)
    : gmap string pyval :=
  let args : gmap string pyval := {[ "fmt" := PyStr fmt ]} in
  let args :=
    match first_page with
    | Some n => if truthy first_page then <[ "first_page" := PyInt n ]> args else args
    | None => args
    end in
  match last_page with
  | Some n => if truthy last_page then <[ "last_page" := PyInt n ]> args else args
  | None => args
  end.

Definition convert_pdf_to_images (pdf_input : source)
    (first_page last_page : option Z) (fmt : string) : M (list bitmap) :=
  try_except
    (let args := common_args first_page last_page fmt in
     match pdf_input with
     | Path p => call (Ev_convert_from_path p args) (convert_from_path W p args)
     | Bytes b => call (Ev_convert_from_bytes b args) (convert_from_bytes W b args)
     end)
    (fun e => raise (RuntimeError ("Failed to convert PDF to Image: " +:+ str_exn e))).

(** The builtin [int] on a dictionary value. *)
Definition py_int (v : pyval) : M Z :=
  match v with
  | PyInt z => ret z
  | PyStr s => (int_of_str W s, [])
  end.

(** [int(info.get("Pages", 0))] after the [pdfinfo] call. *)
Definition total_pages_of (pdf_input : source) : M Z :=
  do info <- match pdf_input with
             | Path p => call (Ev_pdfinfo_from_path p) (pdfinfo_from_path W p)
             | Bytes b => call (Ev_pdfinfo_from_bytes b) (pdfinfo_from_bytes W b)
             end;
  py_int (default (PyInt 0) (info !! "Pages")).

Definition footer_text (page_number total_pages : Z) : string :=
  let footer := "Displaying Page " +:+ str_int page_number +:+ " of "
                +:+ str_int total_pages +:+ "." in
  if page_number <? total_pages then
    footer +:+ " Call this tool again with page_number="
           +:+ str_int (page_number + 1) +:+ " to see the next page."
  else footer.

Definition render_document_page (pdf_input : source) (page_number : Z)
    (max_dimension : option Z) : M (list content) :=
  try_except
    (do total_pages <- total_pages_of pdf_input;
     if page_number >? total_pages then
       ret [Text ("Error: Page " +:+ str_int page_number
                  +:+ " does not exist. The document has "
                  +:+ str_int total_pages +:+ " pages.")]
     else
       do images <- convert_pdf_to_images pdf_input
                      (Some page_number) (Some page_number) "png";
       match images with
       | [] =>
           ret [Text ("Error: Could not render page " +:+ str_int page_number
                      +:+ ". The document might be empty or invalid.")]
       | image0 :: _ =>
           do image <- _resize_if_needed image0 max_dimension;
           do img_bytes <- call (Ev_save image "PNG") (PIL_save W image "PNG");
           ret [ImageContent img_bytes "png";
                Text (footer_text page_number total_pages)]
       end)
    (fun e =>
       run log_error ("Error rendering document page: " +:+ str_exn e);
       ret [Text ("Error rendering document: " +:+ str_exn e)]).

(** The MIME type [get_local_file_visual] dispatches on: the guess, with
    the generic type in place of [None] and of the empty string. *)
Definition guessed_mime (path : string) : exn + string :=
  match mimetypes_guess_type W path with
  | inl e => inl e
  | inr (Some m) => inr (if String.eqb m "" then "application/octet-stream" else m)
  | inr None => inr "application/octet-stream"
  end.

(** [system/local_tools.py], [get_local_file_visual]. *)
Definition get_local_file_visual (path : string) (page_number : Z)
    (max_dimension : option Z) : M (list content) :=
  do found <- call (Ev_exists path) (inr (os_path_exists W path));
  if negb found then ret [Text ("Error: File not found at " +:+ path)]
  else
    do regular <- call (Ev_isfile path) (inr (os_path_isfile W path));
    if negb regular then ret [Text ("Error: Path is not a file: " +:+ path)]
    else
      do mime_type <- call (Ev_guess_type path) (guessed_mime path);
      try_except
        (if Str.startswith mime_type "image/" then
           render_image (Path path) "image/png" max_dimension
         else if String.eqb mime_type "application/pdf" then
           render_document_page (Path path) page_number max_dimension
         else if String.eqb mime_type "text/html" then
           try_except
             (do html_content <- call (Ev_read_text path) (read_text W path);
              do pdf_bytes <- convert_html_to_pdf html_content;
              render_document_page (Bytes pdf_bytes) page_number max_dimension)
             (fun e => ret [Text ("Error rendering HTML file: " +:+ str_exn e)])
         else
           ret [Text ("Error: Unsupported file type '" +:+ mime_type
                      +:+ "'. Only PDF, Images, and HTML are supported for visual inspection.")])
        (fun e =>
           run log_error ("Error reading local file: " +:+ str_exn e);
           ret [Text ("Error reading file: " +:+ str_exn e)]).

End Program.

(** ** The size rule of the imaging library *)

(** [Image.thumbnail] belongs to Pillow, not to this program.  For a box that
    the image does not fit, Pillow keeps one side of the box and gives the
    other side [max(min(floor(q), ceil(q), key=...), 1)], where [q] is the
    proportional length.  Pillow computes [q] and the keys on doubles; for the
    side lengths of images the floor and the ceiling are those of the exact
    quotient, and which of the two [min] keeps is left open here. *)
Module Pillow.

Definition floor_div (a b : Z) : Z := a / b.
Definition ceil_div (a b : Z) : Z := - ((- a) / b).

(** The values [round_aspect] can return for the quotient [a / b]. *)
Definition round_aspect (a b : Z) : list Z :=
  [Z.max (floor_div a b) 1; Z.max (ceil_div a b) 1].

(** [x >= self.width and y >= self.height]: the image is left as it is. *)
Definition fits (size req : Z * Z) : bool :=
  (fst size <=? fst req) && (snd size <=? snd req).

(** The sizes the image can have after [thumbnail(req)]. *)
Definition thumbnail_sizes (size req : Z * Z) : list (Z * Z) :=
  let '(w, h) := size in
  let '(x, y) := req in
  if fits size req then [size]
  else if y * w <=? x * h then
    (* x / y >= aspect: the height of the box is kept *)
    List.map (fun r => (r, y)) (round_aspect (y * w) h)
  else
    (* the width of the box is kept *)
    List.map (fun r => (x, r)) (round_aspect (x * h) w).

End Pillow.

(** ** Reading results and traces *)

Definition begins_with_Error (s : string) : Prop := String.prefix "Error" s = true.

(** [s] has [sub] somewhere inside. *)
Definition mentions (s sub : string) : Prop := Str.contains sub s = true.

Definition is_image_mime (m : string) : bool := Str.startswith m "image/".
Definition is_document_mime (m : string) : bool :=
  String.eqb m "application/pdf" || String.eqb m "text/html".

(** The shapes a result list of the entry point may have, by MIME type. *)
Inductive well_formed_result (mime : string) : list content -> Prop :=
| wf_error (s : string) :
    begins_with_Error s -> well_formed_result mime [Text s]
| wf_image (data : bytes) (tag : string) :
    is_image_mime mime = true ->
    well_formed_result mime [ImageContent data tag]
| wf_document (data : bytes) (tag status : string) :
    is_document_mime mime = true ->
    ~ begins_with_Error status ->
    well_formed_result mime [ImageContent data tag; Text status].

(** The keyword arguments of the rasterizer calls of a trace, in order. *)
Definition rasterizer_kwargs (e : event) : option (gmap string pyval) :=
  match e with
  | Ev_convert_from_path _ k | Ev_convert_from_bytes _ k => Some k
  | _ => None
  end.

Definition rasterizer_calls (t : list event) : list (gmap string pyval) :=
  omap rasterizer_kwargs t.

(** Calls that belong to the renderers (image, document, HTML lowering). *)
Definition is_renderer_call (e : event) : bool :=
  match e with
  | Ev_exists _ | Ev_isfile _ | Ev_guess_type _ | Ev_log_error _ => false
  | _ => true
  end.

Definition is_thumbnail_call (e : event) : bool :=
  match e with Ev_thumbnail _ _ => true | _ => false end.

Definition no_thumbnail_call (t : list event) : Prop :=
  forallb (fun e => negb (is_thumbnail_call e)) t = true.

Definition no_renderer_call (t : list event) : Prop :=
  forallb (fun e => negb (is_renderer_call e)) t = true.

Definition no_error_logged (t : list event) : Prop :=
  forallb (fun e => match e with Ev_log_error _ => false | _ => true end) t = true.

(** The rasterization capability for either kind of PDF handle. *)
Definition rasterizer (W : World) (pdf : source) (kwargs : gmap string pyval)
    : exn + list bitmap :=
  match pdf with
  | Path p => convert_from_path W p kwargs
  | Bytes b => convert_from_bytes W b kwargs
  end.

Definition rasterizer_event (pdf : source) (kwargs : gmap string pyval) : event :=
  match pdf with
  | Path p => Ev_convert_from_path p kwargs
  | Bytes b => Ev_convert_from_bytes b kwargs
  end.

Definition pdfinfo_event (pdf : source) : event :=
  match pdf with
  | Path p => Ev_pdfinfo_from_path p
  | Bytes b => Ev_pdfinfo_from_bytes b
  end.

(** Keyword arguments that confine the rasterizer to pages [first..last], and
    those that leave the page range open. *)
Definition page_range (first last : Z) : gmap string pyval :=
  {[ "fmt" := PyStr "png"; "first_page" := PyInt first; "last_page" := PyInt last ]}.

Definition whole_document : gmap string pyval := {[ "fmt" := PyStr "png" ]}.

Definition has_image (r : list content) : bool :=
  existsb (fun c => match c with ImageContent _ _ => true | Text _ => false end) r.

(** ** A sample world *)

Module Sample.

Definition page (k : Z) (size : Z * Z) : bitmap :=
  Bitmap size [Byte.x50; match k with 1 => Byte.x31 | 2 => Byte.x32 | _ => Byte.x33 end].

Definition pages : list bitmap :=
  [page 1 (1700, 2200); page 2 (2200, 1700); page 3 (1700, 2200)].

Definition photo : bitmap := Bitmap (1200, 800) [Byte.x49].

(** Rasterization of the three-page document under the given arguments. *)
Definition rasterize (kw : gmap string pyval) : list bitmap :=
  let first := match kw !! "first_page" with Some (PyInt n) => Z.max n 1 | _ => 1 end in
  let last := match kw !! "last_page" with Some (PyInt n) => Z.min n 3 | _ => 3 end in
  take (Z.to_nat (last - first + 1)) (drop (Z.to_nat (first - 1)) pages).

Definition encode (im : bitmap) (fmt : string) : exn + bytes :=
  if String.eqb fmt "PNG" then inr (Byte.x89 :: im_pixels im)
  else if String.eqb fmt "JPEG" then inr (Byte.xff :: im_pixels im)
  else inl (OtherError fmt).

(** The thumbnail of this world compares Pillow's keys over exact fractions
    and keeps the ceiling when the two keys are equal. *)
Definition thumbnail_size (size req : Z * Z) : Z * Z :=
  let '(w, h) := size in
  let '(x, y) := req in
  if Pillow.fits size req then size
  else if y * w <=? x * h then
    (* key n = |aspect - n / y| *)
    let lo := Pillow.floor_div (y * w) h in
    let hi := Pillow.ceil_div (y * w) h in
    let keep_lo := Z.abs (w * y - lo * h) <? Z.abs (w * y - hi * h) in
    (Z.max (if keep_lo then lo else hi) 1, y)
  else
    (* key n = 0 if n == 0 else |aspect - x / n| *)
    let lo := Pillow.floor_div (x * h) w in
    let hi := Pillow.ceil_div (x * h) w in
    let keep_lo :=
      if lo =? 0 then negb (hi =? 0)
      else Z.abs (w * lo - x * h) * hi <? Z.abs (w * hi - x * h) * lo in
    (x, Z.max (if keep_lo then lo else hi) 1).

Definition world : World := {|
  os_path_exists p :=
    bool_decide (p ∈ ["/data/photo.jpg"; "/data/report.pdf"; "/data/blank.pdf";
                      "/data/letter.pdf"; "/data/archive.zip"; "/data/page.html";
                      "/data"]);
  os_path_isfile p :=
    bool_decide (p ∈ ["/data/photo.jpg"; "/data/report.pdf"; "/data/blank.pdf";
                      "/data/letter.pdf"; "/data/archive.zip"; "/data/page.html"]);
  mimetypes_guess_type p :=
    inr (if String.eqb p "/data/photo.jpg" then Some "image/jpeg"
         else if String.eqb p "/data/report.pdf" then Some "application/pdf"
         else if String.eqb p "/data/blank.pdf" then Some "application/pdf"
         else if String.eqb p "/data/letter.pdf" then Some "application/pdf"
         else if String.eqb p "/data/archive.zip" then Some "application/zip"
         else if String.eqb p "/data/page.html" then Some "text/html"
         else None);
  read_text p :=
    if String.eqb p "/data/page.html" then inr "<html><body>Hello</body></html>"
    else inl (OtherError "cannot read");
  import_weasyprint := inl (ImportError "No module named 'weasyprint'");
  write_pdf html := inl (OtherError "no typesetter");
  PIL_open _ := inr photo;
  PIL_thumbnail im req :=
    inr (Bitmap (thumbnail_size (im_size im) req) (im_pixels im));
  PIL_save := encode;
  pdfinfo_from_path p :=
    if String.eqb p "/data/report.pdf" then inr {[ "Pages" := PyInt 3 ]}
    else if String.eqb p "/data/blank.pdf" then inr {[ "Pages" := PyInt 1 ]}
    else if String.eqb p "/data/letter.pdf" then inr {[ "Pages" := PyInt 1 ]}
    else inl (OtherError "Unable to get page count.");
  pdfinfo_from_bytes _ := inl (OtherError "Unable to get page count.");
  convert_from_path p kw :=
    if String.eqb p "/data/report.pdf" then inr (rasterize kw)
    else if String.eqb p "/data/letter.pdf" then inr (take 1 (rasterize kw))
    else inr [];
  convert_from_bytes _ _ := inr [];
  int_of_str _ := inl (OtherError "invalid literal for int()");
  unicode_upper s := s;
  unicode_lower s := s
|}.

End Sample.

(** ** Further readings of a trace *)

(** The page-count capability for either kind of PDF handle. *)
Definition pdfinfo (W : World) (pdf : source) : exn + gmap string pyval :=
  match pdf with
  | Path p => pdfinfo_from_path W p
  | Bytes b => pdfinfo_from_bytes W b
  end.

(** Calls of the PDF tools that take a byte buffer, and those that take a
    path. *)
Definition is_from_bytes_call (e : event) : bool :=
  match e with
  | Ev_pdfinfo_from_bytes _ | Ev_convert_from_bytes _ _ => true
  | _ => false
  end.

Definition is_from_path_call (e : event) : bool :=
  match e with
  | Ev_pdfinfo_from_path _ | Ev_convert_from_path _ _ => true
  | _ => false
  end.

(** Messages passed to [logger.error], in order. *)
Definition logged (t : list event) : list string :=
  omap (fun e => match e with Ev_log_error msg => Some msg | _ => None end) t.

(** ** A second sample world: a working typesetter, failing PDF tools *)

Module Site.

Definition home : string := "<html><body><h1>Home</h1></body></html>".

Definition home_pdf : bytes := [Byte.x25; Byte.x50; Byte.x44; Byte.x46].

Definition sheet : bitmap := Bitmap (800, 1100) [Byte.x48].

Definition files : list string :=
  ["/site/index.html"; "/site/broken.html"; "/site/draft.html";
   "/site/locked.pdf"; "/site/nopages.pdf"; "/site/README"].

Definition world : World := {|
  os_path_exists p := bool_decide (p ∈ files);
  os_path_isfile p := bool_decide (p ∈ files);
  mimetypes_guess_type p :=
    inr (if String.eqb p "/site/index.html" then Some "text/html"
         else if String.eqb p "/site/broken.html" then Some "text/html"
         else if String.eqb p "/site/draft.html" then Some "text/html"
         else if String.eqb p "/site/locked.pdf" then Some "application/pdf"
         else if String.eqb p "/site/nopages.pdf" then Some "application/pdf"
         else None);
  read_text p :=
    if String.eqb p "/site/index.html" then inr home
    else if String.eqb p "/site/draft.html" then inr "<p>"
    else inl (OtherError "'utf-8' codec can't decode byte 0xff in position 0");
  import_weasyprint := inr tt;
  write_pdf html :=
    if String.eqb html home then inr home_pdf
    else inl (OtherError "typesetting failed");
  PIL_open _ := inl (OtherError "cannot identify image file");
  PIL_thumbnail im req :=
    if (0 <? fst req) && (0 <? snd req) then
      inr (Bitmap (Sample.thumbnail_size (im_size im) req) (im_pixels im))
    else inl (OtherError "height and width must be > 0");
  PIL_save := Sample.encode;
  pdfinfo_from_path p :=
    if String.eqb p "/site/locked.pdf" then inr {[ "Pages" := PyInt 2 ]}
    else if String.eqb p "/site/nopages.pdf" then inr {[ "Title" := PyStr "Draft" ]}
    else inl (OtherError "Unable to get page count.");
  pdfinfo_from_bytes _ := inr {[ "Pages" := PyInt 1 ]};
  convert_from_path p kw :=
    if String.eqb p "/site/locked.pdf" then inl (OtherError "Incorrect password")
    else inr [];
  convert_from_bytes _ _ := inr [sheet];
  int_of_str _ := inl (OtherError "invalid literal for int()");
  unicode_upper s := s;
  unicode_lower s := s
|}.

End Site.

(** ** A third sample world: a path the MIME guess rejects, and a hint with
    a letter outside ASCII *)

Module Edge.

(** An existing regular file whose name [mimetypes.guess_type] parses as a
    URL with a malformed host. *)
Definition bracket_path : string := "//[d/x.png".

Definition dot : bitmap := Bitmap (1, 1) [Byte.x47].

(** The hint "image/g\xc4\xb1f": its subtype is written with U+0131, the
    dotless i, whose upper case is "I". *)
Definition dotless_hint : string := "image/gıf".

Definition world : World := {|
  os_path_exists p := String.eqb p bracket_path;
  os_path_isfile p := String.eqb p bracket_path;
  mimetypes_guess_type p :=
    if String.eqb p bracket_path then inl (OtherError "Invalid IPv6 URL")
    else inr None;
  read_text _ := inl (OtherError "cannot read");
  import_weasyprint := inr tt;
  write_pdf _ := inl (OtherError "typesetting failed");
  PIL_open _ := inr dot;
  PIL_thumbnail im req :=
    inr (Bitmap (Sample.thumbnail_size (im_size im) req) (im_pixels im));
  PIL_save im fmt :=
    if String.eqb fmt "GIF" then inr (Byte.x47 :: im_pixels im)
    else Sample.encode im fmt;
  pdfinfo_from_path _ := inl (OtherError "Unable to get page count.");
  pdfinfo_from_bytes _ := inl (OtherError "Unable to get page count.");
  convert_from_path _ _ := inr [];
  convert_from_bytes _ _ := inr [];
  int_of_str _ := inl (OtherError "invalid literal for int()");
  unicode_upper s := if String.eqb s "gıf" then "GIF" else s;
  unicode_lower s := s
|}.

End Edge.

(** The wording of the specification for byte-buffer input: on success with a
    hint [ty/sub], the format tag is the subtype in lower case, "jpeg" for
    the alias "jpg". *)
Definition tag_is_subtype_lowercased (W : World) : Prop :=
  forall (b : bytes) (mime : string) (md : option Z) (data : bytes) (tag : string),
    outcome (render_image W (Bytes b) mime md) = inr [ImageContent data tag] ->
    forall ty sub,
      mime = ty +:+ "/" +:+ sub -> Str.contains "/" sub = false ->
      tag = (if String.eqb (str_lower W sub) "jpg" then "jpeg" else str_lower W sub).

(** * Properties *)

(** ** Outcome and trace of the combinators *)

Section Combinators.

Context {A B : Type}.

Lemma outcome_ret (a : A) : outcome (ret a) = inr a.
Proof. reflexivity. Qed.

Lemma trace_ret (a : A) : trace (ret a) = [].
Proof. reflexivity. Qed.

Lemma outcome_call (ev : event) (r : exn + A) : outcome (call ev r) = r.
Proof. reflexivity. Qed.

Lemma trace_call (ev : event) (r : exn + A) : trace (call ev r) = [ev].
Proof. reflexivity. Qed.

Lemma outcome_bind (m : M A) (f : A -> M B) :
  outcome (bind m f) =
  match outcome m with inl e => inl e | inr a => outcome (f a) end.
Proof. destruct m as [[e|a] t]; simpl; [reflexivity|]. now destruct (f a). Qed.

Lemma trace_bind (m : M A) (f : A -> M B) :
  trace (bind m f) =
  trace m ++ match outcome m with inl _ => [] | inr a => trace (f a) end.
Proof.
  destruct m as [[e|a] t]; simpl; [now rewrite app_nil_r|]. now destruct (f a).
Qed.

Lemma outcome_try (m : M A) (h : exn -> M A) :
  outcome (try_except m h) =
  match outcome m with inl e => outcome (h e) | inr a => inr a end.
Proof. destruct m as [[e|a] t]; simpl; [|reflexivity]. now destruct (h e). Qed.

Lemma trace_try (m : M A) (h : exn -> M A) :
  trace (try_except m h) =
  trace m ++ match outcome m with inl e => trace (h e) | inr _ => [] end.
Proof.
  destruct m as [[e|a] t]; simpl; [|now rewrite app_nil_r]. now destruct (h e).
Qed.

End Combinators.

Create Rewrite HintDb run_db.
#[global] Hint Rewrite @outcome_ret @trace_ret @outcome_call @trace_call
  @outcome_bind @trace_bind @outcome_try @trace_try : run_db.

#[global] Arguments bind : simpl never.
#[global] Arguments try_except : simpl never.
#[global] Arguments outcome : simpl never.
#[global] Arguments trace : simpl never.

Ltac run_simpl := autorewrite with run_db in *; cbn [fst snd] in *.

(** ** The program on the sample world *)

Example sample_thumbnail_sizes :
  Pillow.thumbnail_sizes (2200, 1700) (1000, 1000) = [(1000, 772); (1000, 773)] /\
  Pillow.thumbnail_sizes (600, 1200) (111, 111) = [(55, 111); (56, 111)] /\
  Pillow.thumbnail_sizes (11, 6) (10, 10) = [(10, 5); (10, 6)] /\
  Pillow.thumbnail_sizes (1000, 1) (100, 100) = [(100, 1); (100, 1)] /\
  Pillow.thumbnail_sizes (3, 1000) (100, 100) = [(1, 100); (1, 100)] /\
  Pillow.thumbnail_sizes (640, 480) (1000, 1000) = [(640, 480)] /\
  Sample.thumbnail_size (2200, 1700) (1000, 1000) = (1000, 773) /\
  Sample.thumbnail_size (1200, 800) (100, 100) = (100, 67) /\
  Sample.thumbnail_size (600, 1200) (111, 111) = (56, 111) /\
  Sample.thumbnail_size (11, 6) (10, 10) = (10, 6) /\
  Sample.thumbnail_size (1000, 1) (100, 100) = (100, 1).
Proof. repeat split; reflexivity. Qed.

Example sample_second_page :
  outcome (get_local_file_visual Sample.world "/data/report.pdf" 2 (Some 1000)) =
  inr [ImageContent [Byte.x89; Byte.x50; Byte.x32] "png";
       Text "Displaying Page 2 of 3. Call this tool again with page_number=3 to see the next page."].
Proof. reflexivity. Qed.

Example sample_last_page :
  outcome (get_local_file_visual Sample.world "/data/report.pdf" 3 None) =
  inr [ImageContent [Byte.x89; Byte.x50; Byte.x33] "png";
       Text "Displaying Page 3 of 3."].
Proof. reflexivity. Qed.

Example sample_negative_page :
  outcome (get_local_file_visual Sample.world "/data/report.pdf" (-1) None) =
  inr [Text "Error: Could not render page -1. The document might be empty or invalid."].
Proof. reflexivity. Qed.

Example sample_html_without_typesetter :
  outcome (get_local_file_visual Sample.world "/data/page.html" 1 None) =
  inr [Text "Error rendering HTML file: weasyprint is required for PDF rendering."].
Proof. reflexivity. Qed.

Example sample_unknown_codec :
  outcome (render_image Sample.world (Bytes []) "image/webp" None) =
  inr [Text "Error rendering image: WEBP"].
Proof. reflexivity. Qed.

Example sample_split :
  Str.split "/" "image/jpg" = ["image"; "jpg"] /\
  Str.split "/" "a/b/" = ["a"; "b"; ""] /\
  Str.split "/" "" = [""].
Proof. repeat split; reflexivity. Qed.

(** ** The resizer *)

Section Resizer.

Variable W : World.

Lemma resize_absent (im : bitmap) : _resize_if_needed W im None = ret im.
Proof. reflexivity. Qed.

Lemma resize_zero (im : bitmap) : _resize_if_needed W im (Some 0) = ret im.
Proof. reflexivity. Qed.

Lemma resize_fits (im : bitmap) (d : Z) :
  Z.max (fst (im_size im)) (snd (im_size im)) <= d ->
  _resize_if_needed W im (Some d) = ret im.
Proof.
  intros Hfit. unfold _resize_if_needed.
  destruct (negb (truthy (Some d))); [reflexivity|].
  destruct (im_size im) as [w h]; simpl in *.
  apply Z.leb_le in Hfit. now rewrite Hfit.
Qed.

Lemma resize_exceeds (im : bitmap) (d : Z) :
  d <> 0 -> d < Z.max (fst (im_size im)) (snd (im_size im)) ->
  _resize_if_needed W im (Some d) =
  call (Ev_thumbnail im (d, d)) (PIL_thumbnail W im (d, d)).
Proof.
  intros Hd Hbig. unfold _resize_if_needed, truthy.
  apply Z.eqb_neq in Hd. rewrite Hd. simpl.
  destruct (im_size im) as [w h]; simpl in *.
  apply Z.leb_gt in Hbig. now rewrite Hbig.
Qed.

End Resizer.

(** ** Arithmetic of the thumbnail size *)

Section ThumbnailSize.

Import Pillow.

Lemma floor_div_bounds (a b : Z) :
  0 < b -> b * floor_div a b <= a < b * (floor_div a b + 1).
Proof.
  intros Hb. unfold floor_div.
  pose proof (Z.div_mod a b ltac:(lia)) as Hdm.
  pose proof (Z.mod_pos_bound a b Hb) as Hm. lia.
Qed.

Lemma ceil_div_bounds (a b : Z) :
  0 < b -> b * (ceil_div a b - 1) < a <= b * ceil_div a b.
Proof.
  intros Hb. unfold ceil_div.
  pose proof (Z.div_mod (- a) b ltac:(lia)) as Hdm.
  pose proof (Z.mod_pos_bound (- a) b Hb) as Hm. lia.
Qed.

(** Each value [round_aspect] can return is at least one pixel, less than
    one pixel away from the exact quotient, and not above its ceiling. *)
Lemma round_aspect_near (a b r : Z) :
  0 < a -> 0 < b -> In r (round_aspect a b) ->
  1 <= r /\ Z.abs (r * b - a) < b /\ b * (r - 1) < a.
Proof.
  intros Ha Hb Hin. unfold round_aspect in Hin.
  pose proof (floor_div_bounds a b Hb) as Hf.
  pose proof (ceil_div_bounds a b Hb) as Hc.
  assert (0 <= floor_div a b) by (unfold floor_div; apply Z.div_pos; lia).
  assert (1 <= ceil_div a b) by nia.
  assert (ceil_div a b <= floor_div a b + 1) by nia.
  destruct Hin as [<-|[<-|[]]].
  - destruct (Z.max_spec (floor_div a b) 1) as [[Hlt ->]|[Hge ->]].
    + assert (floor_div a b = 0) as Hz by lia. rewrite Hz in *. lia.
    + lia.
  - rewrite Z.max_l by lia. lia.
Qed.

(** Every size Pillow's rule allows for a square box smaller than the image:
    the larger side is the side of the box, the other side is less than one
    pixel away from the proportional length, and neither side grows. *)
Lemma thumbnail_sizes_square (w h b w' h' : Z) :
  0 < w -> 0 < h -> 0 < b -> b < Z.max w h ->
  In (w', h') (thumbnail_sizes (w, h) (b, b)) ->
  1 <= w' /\ 1 <= h' /\
  Z.max w' h' = b /\
  Z.abs (w' * h - h' * w) < Z.max w h /\
  w' <= w /\ h' <= h.
Proof.
  intros Hw Hh Hb Hbig Hin. unfold thumbnail_sizes, fits in Hin. cbn [fst snd] in Hin.
  assert ((w <=? b) && (h <=? b) = false) as Hfit.
  { apply andb_false_iff. rewrite !Z.leb_gt. lia. }
  rewrite Hfit in Hin.
  destruct (b * w <=? b * h) eqn:Hbranch; apply in_map_iff in Hin as (r & [= <- <-] & Hr).
  - apply Z.leb_le in Hbranch. assert (w <= h) by nia.
    destruct (round_aspect_near (b * w) h r ltac:(nia) Hh Hr) as (H1 & H2 & H3).
    assert (r <= b) by nia. assert (r <= w) by nia.
    repeat split; lia.
  - apply Z.leb_gt in Hbranch. assert (h < w) by nia.
    destruct (round_aspect_near (b * h) w r ltac:(nia) Hw Hr) as (H1 & H2 & H3).
    assert (r <= b) by nia. assert (r <= h) by nia.
    repeat split; lia.
Qed.

End ThumbnailSize.

(** ** Claims about the resizer *)

(** Unfold a renderer down to the capability results, then split on them,
    innermost scrutinee first. *)
Ltac split_scrutinee x :=
  lazymatch x with
  | context [match _ with _ => _ end] => fail
  | _ => destruct x eqn:?
  end.

Ltac crunch :=
  repeat (simplify_eq/=; run_simpl;
          try match goal with
              | |- context [match ?x with _ => _ end] => split_scrutinee x
              | H : context [match ?x with _ => _ end] |- _ => split_scrutinee x
              end).

Lemma render_image_unresized_trace (W : World) (input : source) (mime : string) :
  no_thumbnail_call (trace (render_image W input mime None)).
Proof.
  unfold no_thumbnail_call, render_image, log_error. crunch; reflexivity.
Qed.

Lemma render_document_page_unresized_trace (W : World) (pdf : source) (n : Z) :
  no_thumbnail_call (trace (render_document_page W pdf n None)).
Proof.
  unfold no_thumbnail_call, render_document_page, total_pages_of,
    convert_pdf_to_images, py_int, log_error, raise.
  crunch; reflexivity.
Qed.

(** C4.  The resizer returns the bitmap unchanged, without calling the imaging
    library, when the bound is absent or when the larger side is within the
    bound.  When the larger side of a bitmap of positive width and height
    exceeds a positive bound, the resizer hands the bitmap to the library's
    thumbnail with the square box of that bound and passes on what it returns;
    whenever the returned bitmap has one of the sizes Pillow's rule allows,
    its larger side equals the bound and its other side is less than one pixel
    away from the exact proportional length. *)
Theorem resize_if_needed_contract (W : World) (im : bitmap) :
  let w := fst (im_size im) in
  let h := snd (im_size im) in
  _resize_if_needed W im None = ret im /\
  (forall d, Z.max w h <= d -> _resize_if_needed W im (Some d) = ret im) /\
  (forall d, 0 < d -> 0 < w -> 0 < h -> d < Z.max w h ->
     _resize_if_needed W im (Some d) =
       call (Ev_thumbnail im (d, d)) (PIL_thumbnail W im (d, d)) /\
     forall im',
       PIL_thumbnail W im (d, d) = inr im' ->
       In (im_size im') (Pillow.thumbnail_sizes (w, h) (d, d)) ->
       outcome (_resize_if_needed W im (Some d)) = inr im' /\
       Z.max (fst (im_size im')) (snd (im_size im')) = d /\
       Z.abs (fst (im_size im') * h - snd (im_size im') * w) < Z.max w h).
Proof.
  intros w h. split; [apply resize_absent|]. split.
  - intros d Hfit. now apply resize_fits.
  - intros d Hd Hw Hh Hbig.
    rewrite resize_exceeds by (fold w h; lia). split; [reflexivity|].
    intros im' Hcall Hsize. rewrite outcome_call. split; [exact Hcall|].
    destruct (im_size im') as [w' h']. cbn [fst snd].
    destruct (thumbnail_sizes_square w h d w' h' Hw Hh Hd Hbig Hsize)
      as (_ & _ & Hmax & Hasp & _).
    split; assumption.
Qed.

Lemma resize_if_needed_contract_witness :
  _resize_if_needed Sample.world Sample.photo None = ret Sample.photo /\
  _resize_if_needed Sample.world Sample.photo (Some 1200) = ret Sample.photo /\
  _resize_if_needed Sample.world Sample.photo (Some 100) =
    call (Ev_thumbnail Sample.photo (100, 100))
         (PIL_thumbnail Sample.world Sample.photo (100, 100)) /\
  outcome (_resize_if_needed Sample.world Sample.photo (Some 100)) =
    inr (Bitmap (100, 67) [Byte.x49]) /\
  Z.max 100 67 = 100 /\
  Z.abs (100 * 800 - 67 * 1200) < Z.max 1200 800.
Proof.
  destruct (resize_if_needed_contract Sample.world Sample.photo)
    as (Habsent & Hfit & Hdown).
  split; [exact Habsent|]. split; [apply Hfit; simpl; lia|].
  destruct (Hdown 100 ltac:(lia) ltac:(simpl; lia) ltac:(simpl; lia) ltac:(simpl; lia))
    as [Hcall Hsize].
  split; [exact Hcall|].
  apply (Hsize (Bitmap (100, 67) [Byte.x49])).
  - reflexivity.
  - simpl. right. left. reflexivity.
Defined.

(** C10.  A bound of zero is treated as an absent bound: the resizer returns
    the bitmap unchanged, and [render_image] and [render_document_page] with
    bound zero are the computations they are with no bound, in which the
    imaging library's thumbnail is never called. *)
Theorem zero_bound_is_absent (W : World) :
  (forall im,
     _resize_if_needed W im (Some 0) = _resize_if_needed W im None /\
     _resize_if_needed W im (Some 0) = ret im) /\
  (forall input mime,
     render_image W input mime (Some 0) = render_image W input mime None /\
     no_thumbnail_call (trace (render_image W input mime (Some 0)))) /\
  (forall pdf n,
     render_document_page W pdf n (Some 0) = render_document_page W pdf n None /\
     no_thumbnail_call (trace (render_document_page W pdf n (Some 0)))).
Proof.
  split; [|split].
  - intros im. split; reflexivity.
  - intros input mime.
    assert (render_image W input mime (Some 0) = render_image W input mime None)
      as Heq by reflexivity.
    split; [exact Heq|]. rewrite Heq. apply render_image_unresized_trace.
  - intros pdf n.
    assert (render_document_page W pdf n (Some 0) = render_document_page W pdf n None)
      as Heq by reflexivity.
    split; [exact Heq|]. rewrite Heq. apply render_document_page_unresized_trace.
Qed.

(** ** Result shapes of the renderers *)

Lemma footer_not_Error (n total : Z) : ~ begins_with_Error (footer_text n total).
Proof.
  unfold begins_with_Error, footer_text. destruct (n <? total); simpl; congruence.
Qed.

Lemma render_image_shape (W : World) (input : source) (mime : string) (md : option Z) :
  exists r, outcome (render_image W input mime md) = inr r /\
    ((exists s, r = [Text s] /\ begins_with_Error s) \/
     (exists data tag, r = [ImageContent data tag])).
Proof.
  unfold render_image, log_error. crunch; eexists; (split; [reflexivity|]);
    solve [ left; eexists; split; reflexivity
          | right; do 2 eexists; reflexivity ].
Qed.

Lemma render_document_page_shape (W : World) (pdf : source) (n : Z) (md : option Z) :
  exists r, outcome (render_document_page W pdf n md) = inr r /\
    ((exists s, r = [Text s] /\ begins_with_Error s) \/
     (exists data status,
        r = [ImageContent data "png"; Text status] /\ ~ begins_with_Error status)).
Proof.
  unfold render_document_page, log_error. crunch; eexists; (split; [reflexivity|]);
    solve [ left; eexists; split; reflexivity
          | right; do 2 eexists; split; [reflexivity | apply footer_not_Error] ].
Qed.

(** Whenever the MIME guess returns, the entry point returns a well-formed
    list. *)
Lemma get_local_file_visual_well_formed
    (W : World) (path : string) (page_number : Z) (max_dimension : option Z)
    (mime : string) :
  guessed_mime W path = inr mime ->
  exists r,
    outcome (get_local_file_visual W path page_number max_dimension) = inr r /\
    r <> [] /\
    well_formed_result mime r.
Proof.
  intros Hguess.
  assert (forall s, begins_with_Error s ->
            exists r, @inr exn _ [Text s] = inr r /\ r <> [] /\
                      well_formed_result mime r) as Herr.
  { intros s Hs. eexists. split; [reflexivity|]. split; [discriminate|].
    now apply wf_error. }
  unfold get_local_file_visual. run_simpl.
  destruct (os_path_exists W path); simpl; run_simpl; [|now apply Herr].
  destruct (os_path_isfile W path); simpl; run_simpl; [|now apply Herr].
  rewrite Hguess. run_simpl.
  destruct (Str.startswith mime "image/") eqn:Himg.
  { destruct (render_image_shape W (Path path) "image/png" max_dimension)
      as (r & -> & [(s & -> & Hs)|(data & tag & ->)]); [now apply Herr|].
    eexists. split; [reflexivity|]. split; [discriminate|]. now apply wf_image. }
  destruct (String.eqb mime "application/pdf") eqn:Hpdf.
  { destruct (render_document_page_shape W (Path path) page_number max_dimension)
      as (r & -> & [(s & -> & Hs)|(data & status & -> & Hst)]); [now apply Herr|].
    eexists. split; [reflexivity|]. split; [discriminate|].
    apply wf_document; [|exact Hst]. unfold is_document_mime. now rewrite Hpdf. }
  destruct (String.eqb mime "text/html") eqn:Hhtml;
    run_simpl; [|now apply Herr].
  destruct (read_text W path) as [e|html]; run_simpl; [now apply Herr|].
  destruct (outcome (convert_html_to_pdf W html)) as [e|pdf]; run_simpl;
    [now apply Herr|].
  destruct (render_document_page_shape W (Bytes pdf) page_number max_dimension)
    as (r & -> & [(s & -> & Hs)|(data & status & -> & Hst)]); [now apply Herr|].
  eexists. split; [reflexivity|]. split; [discriminate|].
  apply wf_document; [|exact Hst]. unfold is_document_mime.
  rewrite Hhtml. apply orb_true_r.
Qed.

(** C1.  The MIME guess is made before the [try] of the entry point: when it
    raises on an existing regular file, the exception leaves
    [get_local_file_visual] and no result list is returned.  In every other
    call the entry point returns a list and raises nothing: a single text
    beginning with "Error" when the path is missing or not a regular file, and
    otherwise a non-empty list that is a single text beginning with "Error",
    or, for an image MIME type, a single image artifact, or, for a PDF or HTML
    MIME type, an image artifact followed by a status text that does not begin
    with "Error". *)
Theorem mime_guess_failure_escapes
    (W : World) (path : string) (page_number : Z) (max_dimension : option Z) :
  (forall e,
     os_path_exists W path = true -> os_path_isfile W path = true ->
     mimetypes_guess_type W path = inl e ->
     get_local_file_visual W path page_number max_dimension =
     (inl e, [Ev_exists path; Ev_isfile path; Ev_guess_type path])) /\
  (os_path_exists W path && os_path_isfile W path = false ->
   exists s,
     outcome (get_local_file_visual W path page_number max_dimension) =
       inr [Text s] /\
     begins_with_Error s) /\
  (forall mime,
     guessed_mime W path = inr mime ->
     exists r,
       outcome (get_local_file_visual W path page_number max_dimension) = inr r /\
       r <> [] /\
       well_formed_result mime r).
Proof.
  split; [|split].
  - intros e Hex Hfile Hguess. unfold get_local_file_visual, guessed_mime.
    rewrite Hex, Hfile, Hguess. reflexivity.
  - intros Hno. unfold get_local_file_visual. run_simpl.
    destruct (os_path_exists W path); simpl in *; run_simpl.
    + rewrite Hno. simpl. run_simpl. eexists. split; reflexivity.
    + eexists. split; reflexivity.
  - intros mime. apply get_local_file_visual_well_formed.
Qed.

Lemma mime_guess_failure_escapes_witness :
  get_local_file_visual Edge.world "//[d/x.png" 1 None =
    (inl (OtherError "Invalid IPv6 URL"),
     [Ev_exists "//[d/x.png"; Ev_isfile "//[d/x.png"; Ev_guess_type "//[d/x.png"]) /\
  (exists s,
     outcome (get_local_file_visual Sample.world "/nowhere" 1 None) = inr [Text s] /\
     begins_with_Error s) /\
  (exists r,
     outcome (get_local_file_visual Sample.world "/data/photo.jpg" 1 (Some 100)) = inr r /\
     r <> [] /\
     well_formed_result "image/jpeg" r).
Proof.
  split; [|split].
  - apply (mime_guess_failure_escapes Edge.world "//[d/x.png" 1 None); reflexivity.
  - apply (mime_guess_failure_escapes Sample.world "/nowhere" 1 None). reflexivity.
  - apply (mime_guess_failure_escapes Sample.world "/data/photo.jpg" 1 (Some 100)).
    reflexivity.
Defined.

(** ** Substrings *)

Section Substrings.

Lemma prefix_nil (s : string) : String.prefix "" s = true.
Proof. now destruct s. Qed.

Lemma prefix_app (s t : string) : String.prefix s (s +:+ t) = true.
Proof.
  induction s as [|c s IH]; simpl; [apply prefix_nil|].
  destruct (ascii_dec c c); [exact IH|congruence].
Qed.

Lemma contains_prefix (sub s : string) :
  String.prefix sub s = true -> Str.contains sub s = true.
Proof. intros Hp. destruct s; cbn [Str.contains]; now rewrite Hp. Qed.

Lemma contains_here (sub t : string) : Str.contains sub (sub +:+ t) = true.
Proof. apply contains_prefix, prefix_app. Qed.

Lemma contains_later (sub a s : string) :
  Str.contains sub s = true -> Str.contains sub (a +:+ s) = true.
Proof.
  intros Hs. induction a as [|c a IH]; simpl; [exact Hs|].
  rewrite IH. apply orb_true_r.
Qed.

Lemma mentions_infix (a sub b : string) : mentions (a +:+ sub +:+ b) sub.
Proof. apply contains_later, contains_here. Qed.

End Substrings.

(** ** Keyword arguments of the rasterizer *)

Lemma common_args_page (n : Z) (fmt : string) :
  n <> 0 ->
  common_args (Some n) (Some n) fmt =
  <[ "last_page" := PyInt n ]> (<[ "first_page" := PyInt n ]> {[ "fmt" := PyStr fmt ]}).
Proof.
  intros Hn. unfold common_args, truthy. apply Z.eqb_neq in Hn. now rewrite Hn.
Qed.

Lemma common_args_page_range (n : Z) :
  n <> 0 -> common_args (Some n) (Some n) "png" = page_range n n.
Proof.
  intros Hn. rewrite common_args_page by exact Hn. unfold page_range.
  apply map_eq. intros k.
  destruct (decide (k = "fmt")), (decide (k = "first_page")),
    (decide (k = "last_page")); now simplify_map_eq.
Qed.

Lemma common_args_zero : common_args (Some 0) (Some 0) "png" = whole_document.
Proof. reflexivity. Qed.

Lemma page_range_lookup (first last : Z) :
  page_range first last !! "first_page" = Some (PyInt first) /\
  page_range first last !! "last_page" = Some (PyInt last).
Proof. unfold page_range. split; now simplify_map_eq. Qed.

Lemma whole_document_lookup :
  whole_document !! "first_page" = None /\ whole_document !! "last_page" = None.
Proof. split; reflexivity. Qed.

(** ** The page pipeline, stage by stage *)

Section Pipeline.

Variable W : World.

Lemma trace_total_pages_of (pdf : source) :
  trace (total_pages_of W pdf) = [pdfinfo_event pdf].
Proof.
  unfold total_pages_of, py_int. destruct pdf; crunch; reflexivity.
Qed.

Lemma outcome_convert_pdf_to_images (pdf : source) (first last : option Z) (fmt : string) :
  outcome (convert_pdf_to_images W pdf first last fmt) =
  match rasterizer W pdf (common_args first last fmt) with
  | inl e => inl (RuntimeError ("Failed to convert PDF to Image: " +:+ str_exn e))
  | inr images => inr images
  end.
Proof. unfold convert_pdf_to_images, raise. destruct pdf; crunch; reflexivity. Qed.

Lemma trace_convert_pdf_to_images (pdf : source) (first last : option Z) (fmt : string) :
  trace (convert_pdf_to_images W pdf first last fmt) =
  [rasterizer_event pdf (common_args first last fmt)].
Proof. unfold convert_pdf_to_images, raise. destruct pdf; crunch; reflexivity. Qed.

Lemma rasterizer_calls_app (t1 t2 : list event) :
  rasterizer_calls (t1 ++ t2) = rasterizer_calls t1 ++ rasterizer_calls t2.
Proof. apply omap_app. Qed.

Lemma rasterizer_calls_resize (im : bitmap) (md : option Z) :
  rasterizer_calls (trace (_resize_if_needed W im md)) = [].
Proof. unfold _resize_if_needed. crunch; reflexivity. Qed.

Lemma rasterizer_calls_event (pdf : source) (k : gmap string pyval) :
  rasterizer_calls [rasterizer_event pdf k] = [k].
Proof. now destruct pdf. Qed.

Lemma rasterizer_calls_pdfinfo (pdf : source) :
  rasterizer_calls [pdfinfo_event pdf] = [].
Proof. now destruct pdf. Qed.

(** The rasterizer is called at most once, after the page count is known
    and only when the requested page does not exceed it. *)
Lemma rasterizer_calls_document_page (pdf : source) (n : Z) (md : option Z) :
  rasterizer_calls (trace (render_document_page W pdf n md)) =
  match outcome (total_pages_of W pdf) with
  | inr total => if n >? total then [] else [common_args (Some n) (Some n) "png"]
  | inl _ => []
  end.
Proof.
  unfold render_document_page, log_error. run_simpl.
  rewrite trace_total_pages_of.
  destruct (outcome (total_pages_of W pdf)) as [e|total]; run_simpl.
  { now rewrite !rasterizer_calls_app, rasterizer_calls_pdfinfo. }
  destruct (n >? total); run_simpl.
  { now rewrite !rasterizer_calls_app, rasterizer_calls_pdfinfo. }
  rewrite trace_convert_pdf_to_images, outcome_convert_pdf_to_images.
  destruct (rasterizer W pdf _) as [e|[|image0 rest]]; run_simpl;
    try (destruct (outcome (_resize_if_needed W image0 md)) as [e|image]; run_simpl;
         try destruct (PIL_save W image "PNG"));
    now rewrite !rasterizer_calls_app, rasterizer_calls_pdfinfo,
          rasterizer_calls_event, ?rasterizer_calls_resize.
Qed.

(** Stage 3 of the pipeline, once a page image is at hand. *)
Lemma outcome_document_page_image (pdf : source) (n total : Z) (md : option Z)
    (image0 image : bitmap) (rest : list bitmap) (data : bytes) :
  outcome (total_pages_of W pdf) = inr total ->
  n <= total ->
  rasterizer W pdf (common_args (Some n) (Some n) "png") = inr (image0 :: rest) ->
  outcome (_resize_if_needed W image0 md) = inr image ->
  PIL_save W image "PNG" = inr data ->
  outcome (render_document_page W pdf n md) =
  inr [ImageContent data "png"; Text (footer_text n total)].
Proof.
  intros Htotal Hle Hrast Hresize Hsave.
  unfold render_document_page. run_simpl. rewrite Htotal.
  assert ((n >? total) = false) as -> by lia. run_simpl.
  rewrite outcome_convert_pdf_to_images, Hrast. run_simpl.
  rewrite Hresize, Hsave. reflexivity.
Qed.

End Pipeline.

(** ** Claims about the page pipeline *)

(** C2.  For a PDF of [total] pages and a requested page [n] with
    [1 <= n <= total] whose single-page rasterization yields an image that is
    then resized and encoded, the result is the image artifact followed by the
    footer "Displaying Page {n} of {total}.", to which the continuation hint
    naming page [n + 1] is appended when [n < total] and not when
    [n = total]. *)
Theorem document_page_footer (W : World) (pdf : source) (n total : Z)
    (md : option Z) (image0 image : bitmap) (rest : list bitmap) (data : bytes) :
  outcome (total_pages_of W pdf) = inr total ->
  1 <= n <= total ->
  rasterizer W pdf (page_range n n) = inr (image0 :: rest) ->
  outcome (_resize_if_needed W image0 md) = inr image ->
  PIL_save W image "PNG" = inr data ->
  let base := "Displaying Page " +:+ str_int n +:+ " of " +:+ str_int total +:+ "." in
  let hint := " Call this tool again with page_number=" +:+ str_int (n + 1)
              +:+ " to see the next page." in
  exists footer,
    outcome (render_document_page W pdf n md) =
      inr [ImageContent data "png"; Text footer] /\
    (n < total -> footer = base +:+ hint) /\
    (n = total -> footer = base).
Proof.
  intros Htotal Hn Hrast Hresize Hsave base hint.
  rewrite <- common_args_page_range in Hrast by lia.
  exists (footer_text n total). split.
  - now apply (outcome_document_page_image W pdf n total md image0 image rest data).
  - unfold footer_text. fold base. fold hint. split; intros Hcmp.
    + apply Z.ltb_lt in Hcmp. now rewrite Hcmp.
    + assert ((n <? total) = false) as -> by lia. reflexivity.
Qed.

Lemma document_page_footer_witness :
  (exists footer,
     outcome (render_document_page Sample.world (Path "/data/report.pdf") 2 (Some 1000)) =
       inr [ImageContent [Byte.x89; Byte.x50; Byte.x32] "png"; Text footer] /\
     (2 < 3 -> footer = "Displaying Page 2 of 3. Call this tool again with page_number=3 to see the next page.") /\
     (2 = 3 -> footer = "Displaying Page 2 of 3.")) /\
  (exists footer,
     outcome (render_document_page Sample.world (Path "/data/letter.pdf") 1 None) =
       inr [ImageContent [Byte.x89; Byte.x50; Byte.x31] "png"; Text footer] /\
     (1 < 1 -> footer = "Displaying Page 1 of 1. Call this tool again with page_number=2 to see the next page.") /\
     (1 = 1 -> footer = "Displaying Page 1 of 1.")).
Proof.
  split.
  - apply (document_page_footer Sample.world (Path "/data/report.pdf") 2 3 (Some 1000)
             (Sample.page 2 (2200, 1700))
             (Bitmap (1000, 773) [Byte.x50; Byte.x32]) []).
    + reflexivity.
    + lia.
    + vm_compute. reflexivity.
    + reflexivity.
    + reflexivity.
  - apply (document_page_footer Sample.world (Path "/data/letter.pdf") 1 1 None
             (Sample.page 1 (1700, 2200)) (Sample.page 1 (1700, 2200)) []).
    + reflexivity.
    + lia.
    + vm_compute. reflexivity.
    + reflexivity.
    + reflexivity.
Defined.

(** C3.  For a PDF of [total] pages and a requested page [n > total], the
    result is a single text that names both [n] and [total]; it holds no
    image artifact, and the rasterizer is never called: the only capability
    used is the page count. *)
Theorem page_beyond_total (W : World) (pdf : source) (n total : Z) (md : option Z) :
  outcome (total_pages_of W pdf) = inr total ->
  total < n ->
  exists msg,
    outcome (render_document_page W pdf n md) = inr [Text msg] /\
    msg = "Error: Page " +:+ str_int n +:+ " does not exist. The document has "
          +:+ str_int total +:+ " pages." /\
    mentions msg (str_int n) /\
    mentions msg (str_int total) /\
    has_image [Text msg] = false /\
    rasterizer_calls (trace (render_document_page W pdf n md)) = [] /\
    trace (render_document_page W pdf n md) = [pdfinfo_event pdf].
Proof.
  intros Htotal Hgt. eexists. split; [|split; [reflexivity|]].
  - unfold render_document_page. run_simpl. rewrite Htotal.
    assert ((n >? total) = true) as -> by lia. reflexivity.
  - split; [apply mentions_infix|]. split.
    { apply (contains_later _ "Error: Page "), contains_later,
        (contains_later _ " does not exist. The document has "), contains_here. }
    split; [reflexivity|]. split.
    + rewrite rasterizer_calls_document_page, Htotal.
      now assert ((n >? total) = true) as -> by lia.
    + unfold render_document_page. run_simpl.
      rewrite trace_total_pages_of, Htotal.
      assert ((n >? total) = true) as -> by lia. reflexivity.
Qed.

Lemma page_beyond_total_witness :
  exists msg,
    outcome (render_document_page Sample.world (Path "/data/report.pdf") 4 None) =
      inr [Text msg] /\
    msg = "Error: Page 4 does not exist. The document has 3 pages." /\
    mentions msg "4" /\
    mentions msg "3" /\
    has_image [Text msg] = false /\
    rasterizer_calls
      (trace (render_document_page Sample.world (Path "/data/report.pdf") 4 None)) = [] /\
    trace (render_document_page Sample.world (Path "/data/report.pdf") 4 None) =
      [Ev_pdfinfo_from_path "/data/report.pdf"].
Proof.
  apply (page_beyond_total Sample.world (Path "/data/report.pdf") 4 3 None).
  - reflexivity.
  - lia.
Defined.

(** C6.  For a PDF of [total] pages and an in-range page [n], when the
    rasterizer returns the empty sequence, the result is a single text error
    that names the page and says the document "might be empty or invalid";
    nothing is raised and the exception handler does not run (no error is
    logged). *)
Theorem empty_rasterization (W : World) (pdf : source) (n total : Z) (md : option Z) :
  outcome (total_pages_of W pdf) = inr total ->
  1 <= n <= total ->
  rasterizer W pdf (page_range n n) = inr [] ->
  exists msg,
    outcome (render_document_page W pdf n md) = inr [Text msg] /\
    msg = "Error: Could not render page " +:+ str_int n
          +:+ ". The document might be empty or invalid." /\
    mentions msg (str_int n) /\
    mentions msg "might be empty or invalid" /\
    no_error_logged (trace (render_document_page W pdf n md)).
Proof.
  intros Htotal Hn Hrast.
  rewrite <- common_args_page_range in Hrast by lia.
  eexists. split; [|split; [reflexivity|]].
  - unfold render_document_page. run_simpl. rewrite Htotal.
    assert ((n >? total) = false) as -> by lia. run_simpl.
    rewrite outcome_convert_pdf_to_images, Hrast. reflexivity.
  - split; [apply mentions_infix|]. split.
    { apply (contains_later _ "Error: Could not render page "), contains_later.
      reflexivity. }
    unfold no_error_logged, render_document_page. run_simpl.
    rewrite trace_total_pages_of, Htotal.
    assert ((n >? total) = false) as -> by lia. run_simpl.
    rewrite trace_convert_pdf_to_images, outcome_convert_pdf_to_images, Hrast.
    now destruct pdf.
Qed.

Lemma empty_rasterization_witness :
  exists msg,
    outcome (render_document_page Sample.world (Path "/data/blank.pdf") 1 None) =
      inr [Text msg] /\
    msg = "Error: Could not render page 1. The document might be empty or invalid." /\
    mentions msg "1" /\
    mentions msg "might be empty or invalid" /\
    no_error_logged
      (trace (render_document_page Sample.world (Path "/data/blank.pdf") 1 None)).
Proof.
  apply (empty_rasterization Sample.world (Path "/data/blank.pdf") 1 1 None).
  - reflexivity.
  - lia.
  - reflexivity.
Defined.

(** C7.  For a requested page [n >= 1], every rasterizer call made by the
    page pipeline carries exactly the page range [n..n] ([first_page] and
    [last_page] both [n]), so none leaves the range open; and when the page
    count is known and not exceeded, there is exactly one such call. *)
Theorem single_page_rasterization (W : World) (pdf : source) (n : Z) (md : option Z) :
  1 <= n ->
  Forall (fun kwargs : gmap string pyval =>
            kwargs = page_range n n /\
            kwargs !! "first_page" = Some (PyInt n) /\
            kwargs !! "last_page" = Some (PyInt n) /\
            kwargs <> whole_document)
         (rasterizer_calls (trace (render_document_page W pdf n md))) /\
  (forall total,
     outcome (total_pages_of W pdf) = inr total -> n <= total ->
     rasterizer_calls (trace (render_document_page W pdf n md)) = [page_range n n]).
Proof.
  intros Hn. rewrite rasterizer_calls_document_page.
  rewrite common_args_page_range by lia. split.
  - assert (Forall (fun kwargs : gmap string pyval =>
                      kwargs = page_range n n /\
                      kwargs !! "first_page" = Some (PyInt n) /\
                      kwargs !! "last_page" = Some (PyInt n) /\
                      kwargs <> whole_document) [page_range n n]) as Hone.
    { constructor; [|constructor].
      destruct (page_range_lookup n n) as [Hfirst Hlast].
      repeat split; try assumption.
      intros Heq. rewrite Heq in Hfirst. discriminate. }
    destruct (outcome (total_pages_of W pdf)) as [e|total]; [constructor|].
    destruct (n >? total); [constructor|exact Hone].
  - intros total -> Hle. now assert ((n >? total) = false) as -> by lia.
Qed.

Lemma single_page_rasterization_witness :
  Forall (fun kwargs : gmap string pyval =>
            kwargs = page_range 2 2 /\
            kwargs !! "first_page" = Some (PyInt 2) /\
            kwargs !! "last_page" = Some (PyInt 2) /\
            kwargs <> whole_document)
         (rasterizer_calls
            (trace (render_document_page Sample.world (Path "/data/report.pdf") 2 None))) /\
  rasterizer_calls
    (trace (render_document_page Sample.world (Path "/data/report.pdf") 2 None)) =
  [page_range 2 2].
Proof.
  destruct (single_page_rasterization Sample.world (Path "/data/report.pdf") 2 None
              ltac:(lia)) as [Hall Hone].
  split; [exact Hall|]. apply (Hone 3); [reflexivity|lia].
Defined.

(** C9.  For a PDF of [total >= 1] pages that rasterizes to at least one
    image, page number 0 is not reported as out of range; the one rasterizer
    call carries no page range, so the whole document is rasterized; the first
    bitmap of that sequence becomes the image artifact, and the footer reads
    "Displaying Page 0 of {total}." followed by the continuation hint naming
    page_number=1. *)
Theorem page_zero_renders_whole_document (W : World) (pdf : source) (total : Z)
    (md : option Z) (image0 image : bitmap) (rest : list bitmap) (data : bytes) :
  outcome (total_pages_of W pdf) = inr total ->
  1 <= total ->
  rasterizer W pdf whole_document = inr (image0 :: rest) ->
  outcome (_resize_if_needed W image0 md) = inr image ->
  PIL_save W image "PNG" = inr data ->
  outcome (render_document_page W pdf 0 md) =
    inr [ImageContent data "png";
         Text (("Displaying Page 0 of " +:+ str_int total +:+ ".")
               +:+ " Call this tool again with page_number=1 to see the next page.")] /\
  rasterizer_calls (trace (render_document_page W pdf 0 md)) = [whole_document] /\
  whole_document !! "first_page" = None /\
  whole_document !! "last_page" = None.
Proof.
  intros Htotal Hpos Hrast Hresize Hsave. split; [|split].
  - rewrite (outcome_document_page_image W pdf 0 total md image0 image rest data);
      try assumption; [|lia].
    unfold footer_text. now assert ((0 <? total) = true) as -> by lia.
  - rewrite rasterizer_calls_document_page, Htotal.
    now assert ((0 >? total) = false) as -> by lia.
  - exact whole_document_lookup.
Qed.

Lemma page_zero_renders_whole_document_witness :
  outcome (render_document_page Sample.world (Path "/data/report.pdf") 0 None) =
    inr [ImageContent [Byte.x89; Byte.x50; Byte.x31] "png";
         Text "Displaying Page 0 of 3. Call this tool again with page_number=1 to see the next page."] /\
  rasterizer_calls
    (trace (render_document_page Sample.world (Path "/data/report.pdf") 0 None)) =
    [whole_document] /\
  whole_document !! "first_page" = None /\
  whole_document !! "last_page" = None.
Proof.
  apply (page_zero_renders_whole_document Sample.world (Path "/data/report.pdf") 3 None
           (Sample.page 1 (1700, 2200)) (Sample.page 1 (1700, 2200))
           (skipn 1 Sample.pages)).
  - reflexivity.
  - lia.
  - reflexivity.
  - reflexivity.
  - reflexivity.
Defined.

(** ** Letter case and MIME subtypes *)

Section MimeSubtype.

Variable W : World.

Lemma lower_upper_ascii (c : ascii) :
  Str.lower_ascii (Str.upper_ascii c) = Str.lower_ascii c.
Proof. destruct c as [[] [] [] [] [] [] [] []]; reflexivity. Qed.

Lemma lower_upper (s : string) :
  Str.ascii_lower (Str.ascii_upper s) = Str.ascii_lower s.
Proof.
  unfold Str.ascii_lower, Str.ascii_upper.
  induction s as [|c s IH]; simpl; [reflexivity|].
  now rewrite lower_upper_ascii, IH.
Qed.

Lemma upper_ascii_stays_ascii (c : ascii) :
  (Ascii.N_of_ascii (Str.upper_ascii c) <? 128)%N = (Ascii.N_of_ascii c <? 128)%N.
Proof. destruct c as [[] [] [] [] [] [] [] []]; reflexivity. Qed.

Lemma is_ascii_upper (s : string) :
  Str.is_ascii (Str.ascii_upper s) = Str.is_ascii s.
Proof.
  unfold Str.ascii_upper.
  induction s as [|c s IH]; [reflexivity|].
  cbn [Str.map Str.is_ascii]. now rewrite upper_ascii_stays_ascii, IH.
Qed.

(** On ASCII text the case methods are the ASCII maps, and lowering the
    upper-cased text is lowering the text. *)
Lemma str_upper_ascii (s : string) :
  Str.is_ascii s = true -> str_upper W s = Str.ascii_upper s.
Proof. intros Hs. unfold str_upper. now rewrite Hs. Qed.

Lemma str_lower_ascii (s : string) :
  Str.is_ascii s = true -> str_lower W s = Str.ascii_lower s.
Proof. intros Hs. unfold str_lower. now rewrite Hs. Qed.

Lemma str_lower_upper_ascii (s : string) :
  Str.is_ascii s = true -> str_lower W (str_upper W s) = Str.ascii_lower s.
Proof.
  intros Hs. rewrite (str_upper_ascii s Hs), str_lower_ascii, lower_upper;
    [reflexivity|]. now rewrite is_ascii_upper.
Qed.

Lemma contains_char_cons (c a : ascii) (s : string) :
  Str.contains (String c "") (String a s) = false ->
  Ascii.eqb a c = false /\ Str.contains (String c "") s = false.
Proof.
  simpl. intros H. apply orb_false_iff in H as [Hhead Htail].
  split; [|exact Htail].
  destruct (ascii_dec c a) as [->|Hne].
  - now rewrite prefix_nil in Hhead.
  - apply Ascii.eqb_neq. congruence.
Qed.

Lemma split_no_separator (c : ascii) (s : string) :
  Str.contains (String c "") s = false -> Str.split c s = [s].
Proof.
  induction s as [|a s IH]; [reflexivity|].
  intros H. apply contains_char_cons in H as [Hne Hrest].
  simpl. now rewrite Hne, (IH Hrest).
Qed.

Lemma split_at_separator (c : ascii) (ty sub : string) :
  Str.contains (String c "") sub = false ->
  exists w ws, Str.split c (ty +:+ String c sub) = w :: ws ++ [sub].
Proof.
  intros Hsub. induction ty as [|a ty (w & ws & IH)]; simpl.
  - rewrite Ascii.eqb_refl, (split_no_separator c sub Hsub). now exists "", [].
  - rewrite IH. destruct (Ascii.eqb a c).
    + now exists "", (w :: ws).
    + now exists (String a w), ws.
Qed.

(** The last field of [mime.split("/")] is the text after the last slash. *)
Lemma subtype_after_slash (ty sub : string) :
  Str.contains "/" sub = false ->
  Str.last_field (Str.split "/" (ty +:+ "/" +:+ sub)) = sub.
Proof.
  intros Hsub.
  destruct (split_at_separator "/" ty sub Hsub) as (w & ws & Hsplit).
  change (ty +:+ "/" +:+ sub) with (ty +:+ String "/" sub).
  rewrite Hsplit. unfold Str.last_field.
  change (w :: ws ++ [sub]) with ((w :: ws) ++ [sub]). apply List.last_last.
Qed.

Lemma image_format_path (p mime : string) : image_format W (Path p) mime = "PNG".
Proof. reflexivity. Qed.

Lemma image_format_bytes (b : bytes) (ty sub : string) :
  Str.contains "/" sub = false ->
  image_format W (Bytes b) (ty +:+ "/" +:+ sub) =
  if String.eqb (str_upper W sub) "JPG" then "JPEG" else str_upper W sub.
Proof.
  intros Hsub. unfold image_format. simpl.
  rewrite (mentions_infix ty "/" sub), (subtype_after_slash ty sub Hsub).
  reflexivity.
Qed.

End MimeSubtype.

(** A successful [render_image] returns what the codec produced for the
    chosen encoding, tagged with that encoding in lower case. *)
Lemma render_image_success (W : World) (input : source) (mime : string)
    (md : option Z) (data : bytes) (tag : string) :
  outcome (render_image W input mime md) = inr [ImageContent data tag] ->
  tag = str_lower W (image_format W input mime) /\
  exists im,
    PIL_save W im (image_format W input mime) = inr data /\
    Ev_save im (image_format W input mime) ∈ trace (render_image W input mime md).
Proof.
  unfold render_image, log_error. intros H. crunch.
  split; [reflexivity|]. eexists. split; [eassumption|].
  set_solver.
Qed.

(** ** Claims about image rendering and dispatch *)

(** C5.  When [render_image] succeeds on a byte buffer whose MIME hint is
    [ty/sub] ([sub] free of "/"), the bytes returned are the codec's output for
    the encoding named by [sub.upper()], with "JPG" replaced by "JPEG", and
    the format tag is that encoding in lower case; when [sub] is ASCII text,
    the tag is [sub] in lower case, "jpeg" for the alias.  When it succeeds on
    a path, the bytes are the codec's PNG output and the tag is "png",
    whatever the hint. *)
Theorem render_image_encoding (W : World) (input : source) (mime : string)
    (md : option Z) (data : bytes) (tag : string) :
  outcome (render_image W input mime md) = inr [ImageContent data tag] ->
  match input with
  | Bytes _ =>
      forall ty sub,
        mime = ty +:+ "/" +:+ sub -> Str.contains "/" sub = false ->
        let encoding := if String.eqb (str_upper W sub) "JPG" then "JPEG"
                        else str_upper W sub in
        tag = str_lower W encoding /\
        (Str.is_ascii sub = true ->
         tag = (if String.eqb (Str.ascii_upper sub) "JPG" then "jpeg"
                else Str.ascii_lower sub)) /\
        exists im,
          PIL_save W im encoding = inr data /\
          Ev_save im encoding ∈ trace (render_image W input mime md)
  | Path _ =>
      tag = "png" /\
      exists im,
        PIL_save W im "PNG" = inr data /\
        Ev_save im "PNG" ∈ trace (render_image W input mime md)
  end.
Proof.
  intros Hok. apply render_image_success in Hok as (Htag & im & Hsave & Hev).
  destruct input as [b|p].
  - intros ty sub -> Hsub encoding.
    rewrite (image_format_bytes W b ty sub Hsub) in *.
    fold encoding in Htag, Hsave, Hev.
    split; [exact Htag|]. split; [|now exists im].
    intros Hascii. rewrite Htag. subst encoding.
    rewrite (str_upper_ascii W sub Hascii).
    destruct (String.eqb (Str.ascii_upper sub) "JPG"); [reflexivity|].
    rewrite <- (str_upper_ascii W sub Hascii).
    now apply str_lower_upper_ascii.
  - rewrite image_format_path in *. split; [exact Htag|]. now exists im.
Qed.

Lemma render_image_encoding_witness :
  ("jpeg" = str_lower Sample.world "JPEG" /\
   "jpeg" = "jpeg" /\
   exists im,
     PIL_save Sample.world im "JPEG" = inr [Byte.xff; Byte.x49] /\
     Ev_save im "JPEG" ∈
       trace (render_image Sample.world (Bytes []) "image/jpg" (Some 100))) /\
  ("png" = "png" /\
   exists im,
     PIL_save Sample.world im "PNG" = inr [Byte.x89; Byte.x49] /\
     Ev_save im "PNG" ∈
       trace (render_image Sample.world (Path "/data/photo.jpg") "image/png" None)).
Proof.
  split.
  - destruct (render_image_encoding Sample.world (Bytes []) "image/jpg" (Some 100)
                [Byte.xff; Byte.x49] "jpeg" ltac:(reflexivity) "image" "jpg"
                ltac:(reflexivity) ltac:(reflexivity)) as (Htag & Hascii & Hsave).
    split; [exact Htag|]. split; [|exact Hsave].
    apply Hascii. reflexivity.
  - apply (render_image_encoding Sample.world (Path "/data/photo.jpg") "image/png" None
             [Byte.x89; Byte.x49] "png"). reflexivity.
Defined.

(** The claim as the specification words it fails for a hint whose subtype
    is not ASCII: with the hint "image/g\xc4\xb1f" the image is saved as
    "GIF" and tagged "gif", which is not the subtype in lower case. *)
Lemma render_image_encoding_counterexample :
  outcome (render_image Edge.world (Bytes []) Edge.dotless_hint None) =
    inr [ImageContent [Byte.x47; Byte.x47] "gif"] /\
  Edge.dotless_hint = "image" +:+ "/" +:+ "gıf" /\
  Str.contains "/" "gıf" = false /\
  str_lower Edge.world "gıf" = "gıf" /\
  "gif" <> "gıf" /\
  ~ tag_is_subtype_lowercased Edge.world.
Proof.
  split; [reflexivity|]. split; [reflexivity|]. split; [reflexivity|].
  split; [reflexivity|]. split; [discriminate|].
  intros Hclaim.
  specialize (Hclaim [] Edge.dotless_hint None [Byte.x47; Byte.x47] "gif"
                eq_refl "image" "gıf" eq_refl eq_refl).
  vm_compute in Hclaim. discriminate Hclaim.
Qed.

(** C8.  A path that does not exist yields one text error containing
    "not found"; an existing path that is not a regular file yields one text
    error containing "not a file"; an existing regular file whose MIME type
    (the generic octet-stream type when none is inferred) is not an image type,
    PDF or HTML yields one text error naming that MIME type, [mime] being the
    type the guess returned.  In each case the
    only capabilities used are the file system checks and the MIME guess: no
    renderer is called. *)
Theorem dispatch_input_errors (W : World) (path : string) (page_number : Z)
    (max_dimension : option Z) :
  (os_path_exists W path = false ->
   exists msg,
     get_local_file_visual W path page_number max_dimension =
       (inr [Text msg], [Ev_exists path]) /\
     mentions msg "not found" /\ begins_with_Error msg) /\
  (os_path_exists W path = true -> os_path_isfile W path = false ->
   exists msg,
     get_local_file_visual W path page_number max_dimension =
       (inr [Text msg], [Ev_exists path; Ev_isfile path]) /\
     mentions msg "not a file" /\ begins_with_Error msg) /\
  (os_path_exists W path = true -> os_path_isfile W path = true ->
   forall mime,
     guessed_mime W path = inr mime ->
     is_image_mime mime = false ->
     mime <> "application/pdf" ->
     mime <> "text/html" ->
     exists msg,
       get_local_file_visual W path page_number max_dimension =
         (inr [Text msg], [Ev_exists path; Ev_isfile path; Ev_guess_type path]) /\
       mentions msg mime /\ begins_with_Error msg) /\
  (mimetypes_guess_type W path = inr None ->
   guessed_mime W path = inr "application/octet-stream") /\
  no_renderer_call [Ev_exists path; Ev_isfile path; Ev_guess_type path].
Proof.
  split; [|split; [|split; [|split]]].
  - intros Hex. eexists. split; [|split].
    + unfold get_local_file_visual. rewrite Hex. reflexivity.
    + apply (contains_later _ "Error: File "), (contains_here "not found").
    + reflexivity.
  - intros Hex Hfile. eexists. split; [|split].
    + unfold get_local_file_visual. rewrite Hex, Hfile. reflexivity.
    + apply (contains_later _ "Error: Path is "), (contains_here "not a file").
    + reflexivity.
  - intros Hex Hfile mime Hguess Himg Hpdf Hhtml. eexists. split; [|split].
    + unfold get_local_file_visual. rewrite Hex, Hfile, Hguess.
      unfold bind at 1. cbn [call negb]. unfold bind at 1. cbn [call negb].
      unfold bind at 1. cbn [call].
      unfold is_image_mime in Himg. rewrite Himg.
      apply String.eqb_neq in Hpdf, Hhtml. rewrite Hpdf, Hhtml. reflexivity.
    + apply (mentions_infix "Error: Unsupported file type '").
    + reflexivity.
  - unfold guessed_mime. now intros ->.
  - reflexivity.
Qed.

Lemma dispatch_input_errors_witness :
  (exists msg,
     get_local_file_visual Sample.world "/nowhere" 1 None =
       (inr [Text msg], [Ev_exists "/nowhere"]) /\
     mentions msg "not found" /\ begins_with_Error msg) /\
  (exists msg,
     get_local_file_visual Sample.world "/data" 1 None =
       (inr [Text msg], [Ev_exists "/data"; Ev_isfile "/data"]) /\
     mentions msg "not a file" /\ begins_with_Error msg) /\
  (exists msg,
     get_local_file_visual Sample.world "/data/archive.zip" 1 None =
       (inr [Text msg], [Ev_exists "/data/archive.zip"; Ev_isfile "/data/archive.zip";
                         Ev_guess_type "/data/archive.zip"]) /\
     mentions msg "application/zip" /\ begins_with_Error msg) /\
  guessed_mime Sample.world "/nowhere" = inr "application/octet-stream".
Proof.
  split; [|split; [|split]].
  - apply (dispatch_input_errors Sample.world "/nowhere" 1 None). reflexivity.
  - apply (dispatch_input_errors Sample.world "/data" 1 None); reflexivity.
  - apply (dispatch_input_errors Sample.world "/data/archive.zip" 1 None);
      try reflexivity; discriminate.
  - apply (dispatch_input_errors Sample.world "/nowhere" 1 None). reflexivity.
Defined.


(** * Further properties of the renderers *)

(** ** What is logged *)

Section Logging.

Variable W : World.

Lemma trace_pair {A : Type} (r : exn + A) (t : list event) : trace (r, t) = t.
Proof. reflexivity. Qed.

Lemma outcome_pair {A : Type} (r : exn + A) (t : list event) : outcome (r, t) = r.
Proof. reflexivity. Qed.

Lemma logged_app (t1 t2 : list event) : logged (t1 ++ t2) = logged t1 ++ logged t2.
Proof. apply omap_app. Qed.

Lemma logged_resize (im : bitmap) (md : option Z) :
  logged (trace (_resize_if_needed W im md)) = [].
Proof. unfold _resize_if_needed. crunch; reflexivity. Qed.

Lemma logged_total_pages_of (pdf : source) : logged (trace (total_pages_of W pdf)) = [].
Proof. rewrite trace_total_pages_of. now destruct pdf. Qed.

Lemma logged_convert_pdf_to_images (pdf : source) (first last : option Z) (fmt : string) :
  logged (trace (convert_pdf_to_images W pdf first last fmt)) = [].
Proof. rewrite trace_convert_pdf_to_images. now destruct pdf. Qed.

(** [render_image] has two kinds of result, and logs in exactly one. *)
Lemma render_image_cases (input : source) (mime : string) (md : option Z) :
  (exists e,
     outcome (render_image W input mime md) =
       inr [Text ("Error rendering image: " +:+ str_exn e)] /\
     logged (trace (render_image W input mime md)) =
       ["Error rendering image: " +:+ str_exn e]) \/
  (exists data,
     outcome (render_image W input mime md) =
       inr [ImageContent data (str_lower W (image_format W input mime))] /\
     logged (trace (render_image W input mime md)) = []).
Proof.
  unfold render_image, log_error. run_simpl.
  destruct (PIL_open W input) as [e|im]; run_simpl.
  { left. exists e. split; reflexivity. }
  pose proof (logged_resize im md) as Hlog.
  destruct (outcome (_resize_if_needed W im md)) as [e|im']; run_simpl.
  { left. exists e. split; [reflexivity|].
    rewrite !logged_app, Hlog. reflexivity. }
  destruct (PIL_save W im' (image_format W input mime)) as [e|data]; run_simpl.
  - left. exists e. split; [reflexivity|].
    rewrite !logged_app, Hlog. reflexivity.
  - right. exists data. split; [reflexivity|].
    rewrite !logged_app, Hlog. reflexivity.
Qed.

End Logging.

Section DocumentCases.

Variable W : World.

Lemma outcome_total_pages_of (pdf : source) :
  outcome (total_pages_of W pdf) =
  match pdfinfo W pdf with
  | inl e => inl e
  | inr info =>
      match default (PyInt 0) (info !! "Pages") with
      | PyInt z => inr z
      | PyStr s => int_of_str W s
      end
  end.
Proof.
  unfold total_pages_of, py_int, pdfinfo. destruct pdf; run_simpl;
    match goal with |- context [match ?x with _ => _ end] => destruct x end;
    try reflexivity;
    match goal with |- context [default _ ?x] => destruct x as [[]|] end; reflexivity.
Qed.

(** The whole run of the page pipeline, by the stage at which it ends. *)
Lemma render_document_page_run (pdf : source) (n : Z) (md : option Z) :
  render_document_page W pdf n md =
  let failed (t : list event) (e : exn) : M (list content) :=
    (inr [Text ("Error rendering document: " +:+ str_exn e)],
     t ++ [Ev_log_error ("Error rendering document page: " +:+ str_exn e)]) in
  let args := common_args (Some n) (Some n) "png" in
  match outcome (total_pages_of W pdf) with
  | inl e => failed [pdfinfo_event pdf] e
  | inr total =>
      if n >? total then
        (inr [Text ("Error: Page " +:+ str_int n
                    +:+ " does not exist. The document has "
                    +:+ str_int total +:+ " pages.")],
         [pdfinfo_event pdf])
      else
        let t := [pdfinfo_event pdf; rasterizer_event pdf args] in
        match rasterizer W pdf args with
        | inl e =>
            failed t (RuntimeError ("Failed to convert PDF to Image: " +:+ str_exn e))
        | inr [] =>
            (inr [Text ("Error: Could not render page " +:+ str_int n
                        +:+ ". The document might be empty or invalid.")], t)
        | inr (image0 :: _) =>
            let t := t ++ trace (_resize_if_needed W image0 md) in
            match outcome (_resize_if_needed W image0 md) with
            | inl e => failed t e
            | inr image =>
                let t := t ++ [Ev_save image "PNG"] in
                match PIL_save W image "PNG" with
                | inl e => failed t e
                | inr data =>
                    (inr [ImageContent data "png"; Text (footer_text n total)], t)
                end
            end
        end
  end.
Proof.
  cbv zeta.
  rewrite (surjective_pairing (render_document_page W pdf n md)).
  change (fst (render_document_page W pdf n md))
    with (outcome (render_document_page W pdf n md)).
  change (snd (render_document_page W pdf n md))
    with (trace (render_document_page W pdf n md)).
  unfold render_document_page, log_error. run_simpl.
  rewrite trace_total_pages_of.
  destruct (outcome (total_pages_of W pdf)) as [e|total]; run_simpl; [reflexivity|].
  destruct (n >? total); run_simpl; [reflexivity|].
  rewrite trace_convert_pdf_to_images, outcome_convert_pdf_to_images.
  destruct (rasterizer W pdf _) as [e|[|image0 rest]]; run_simpl; try reflexivity.
  destruct (outcome (_resize_if_needed W image0 md)) as [e|image]; run_simpl.
  { f_equal. now rewrite <- !app_assoc, app_nil_r. }
  destruct (PIL_save W image "PNG") as [e|data]; run_simpl;
    f_equal; rewrite <- ?app_assoc, ?app_nil_r; reflexivity.
Qed.

End DocumentCases.

(** ** Failures inside the page pipeline *)

(** X1.  [render_document_page] never raises.  Either an exception was caught:
    the result is the single text "Error rendering document: {cause}" and
    exactly one message, "Error rendering document page: {cause}", is logged.
    Or nothing is logged, the page count [total] was obtained, and the result
    is the out-of-range text (when [total < n]), the empty-rasterization text,
    or a PNG artifact followed by the footer for [n] and [total]. *)
Theorem render_document_page_outcomes (W : World) (pdf : source) (n : Z) (md : option Z) :
  let r := render_document_page W pdf n md in
  (exists e,
     outcome r = inr [Text ("Error rendering document: " +:+ str_exn e)] /\
     logged (trace r) = ["Error rendering document page: " +:+ str_exn e]) \/
  (logged (trace r) = [] /\
   exists total,
     outcome (total_pages_of W pdf) = inr total /\
     ((total < n /\
       outcome r = inr [Text ("Error: Page " +:+ str_int n
                              +:+ " does not exist. The document has "
                              +:+ str_int total +:+ " pages.")]) \/
      (n <= total /\
       outcome r = inr [Text ("Error: Could not render page " +:+ str_int n
                              +:+ ". The document might be empty or invalid.")]) \/
      (n <= total /\
       exists data,
         outcome r = inr [ImageContent data "png"; Text (footer_text n total)]))).
Proof.
  intros r. subst r. rewrite render_document_page_run. cbv zeta.
  destruct (outcome (total_pages_of W pdf)) as [e|total] eqn:Htotal.
  { left. exists e. split; [reflexivity|]. now destruct pdf. }
  destruct (n >? total) eqn:Hcmp.
  { right. split; [now destruct pdf|]. exists total. split; [reflexivity|].
    left. split; [lia|reflexivity]. }
  assert (n <= total) as Hle by lia.
  destruct (rasterizer W pdf _) as [e|[|image0 rest]].
  - left. eexists. split; [reflexivity|]. now destruct pdf.
  - right. split; [now destruct pdf|]. exists total. split; [reflexivity|].
    right. left. split; [exact Hle|reflexivity].
  - pose proof (logged_resize W image0 md) as Hlog.
    assert (forall k, logged [pdfinfo_event pdf; rasterizer_event pdf k] = [])
      as Hhead by (intros k; now destruct pdf).
    destruct (outcome (_resize_if_needed W image0 md)) as [e|image].
    { left. exists e. split; [reflexivity|].
      rewrite trace_pair. now rewrite !logged_app, Hhead, Hlog. }
    destruct (PIL_save W image "PNG") as [e|data].
    + left. exists e. split; [reflexivity|].
      rewrite trace_pair. now rewrite !logged_app, Hhead, Hlog.
    + right. split.
      { rewrite trace_pair. now rewrite !logged_app, Hhead, Hlog. }
      exists total. split; [reflexivity|]. right. right.
      split; [exact Hle|]. now exists data.
Qed.

(** X2.  When the rasterizer raises on an in-range, non-zero page, its cause
    is wrapped once as "Failed to convert PDF to Image: {cause}" and reported
    as the single text "Error rendering document: Failed to convert PDF to
    Image: {cause}"; the same wrapped cause is logged, and no image artifact
    is returned. *)
Theorem rasterizer_failure_reported (W : World) (pdf : source) (n total : Z)
    (md : option Z) (cause : exn) :
  outcome (total_pages_of W pdf) = inr total ->
  n <= total -> n <> 0 ->
  rasterizer W pdf (page_range n n) = inl cause ->
  render_document_page W pdf n md =
  (inr [Text ("Error rendering document: " +:+ "Failed to convert PDF to Image: "
              +:+ str_exn cause)],
   [pdfinfo_event pdf; rasterizer_event pdf (page_range n n);
    Ev_log_error ("Error rendering document page: "
                  +:+ "Failed to convert PDF to Image: " +:+ str_exn cause)]).
Proof.
  intros Htotal Hle Hn Hrast. rewrite render_document_page_run. cbv zeta.
  rewrite Htotal. assert ((n >? total) = false) as -> by lia.
  rewrite common_args_page_range by exact Hn. now rewrite Hrast.
Qed.

Lemma rasterizer_failure_reported_witness :
  render_document_page Site.world (Path "/site/locked.pdf") 1 None =
  (inr [Text "Error rendering document: Failed to convert PDF to Image: Incorrect password"],
   [Ev_pdfinfo_from_path "/site/locked.pdf";
    Ev_convert_from_path "/site/locked.pdf" (page_range 1 1);
    Ev_log_error
      "Error rendering document page: Failed to convert PDF to Image: Incorrect password"]).
Proof.
  apply (rasterizer_failure_reported Site.world (Path "/site/locked.pdf") 1 2 None
           (OtherError "Incorrect password")).
  - reflexivity.
  - lia.
  - lia.
  - reflexivity.
Defined.

(** X3.  When the page count cannot be obtained, the result is the single
    text "Error rendering document: {cause}", the cause is logged, and the
    rasterizer is not called: the page-count call is the only capability
    used. *)
Theorem page_count_failure_reported (W : World) (pdf : source) (n : Z)
    (md : option Z) (cause : exn) :
  pdfinfo W pdf = inl cause ->
  render_document_page W pdf n md =
  (inr [Text ("Error rendering document: " +:+ str_exn cause)],
   [pdfinfo_event pdf;
    Ev_log_error ("Error rendering document page: " +:+ str_exn cause)]).
Proof.
  intros Hinfo. rewrite render_document_page_run. cbv zeta.
  now rewrite outcome_total_pages_of, Hinfo.
Qed.

Lemma page_count_failure_reported_witness :
  render_document_page Sample.world (Path "/data/photo.jpg") 1 (Some 640) =
  (inr [Text "Error rendering document: Unable to get page count."],
   [Ev_pdfinfo_from_path "/data/photo.jpg";
    Ev_log_error "Error rendering document page: Unable to get page count."]).
Proof.
  apply (page_count_failure_reported Sample.world (Path "/data/photo.jpg") 1 (Some 640)
           (OtherError "Unable to get page count.")).
  reflexivity.
Defined.

(** X4.  A page-count dictionary without the key "Pages" counts as a document
    of 0 pages: every page number [n >= 1] is reported as out of range against
    a total of 0, and the rasterizer is not called. *)
Theorem missing_pages_key_is_zero (W : World) (pdf : source) (n : Z) (md : option Z)
    (info : gmap string pyval) :
  pdfinfo W pdf = inr info ->
  info !! "Pages" = None ->
  1 <= n ->
  render_document_page W pdf n md =
  (inr [Text ("Error: Page " +:+ str_int n
              +:+ " does not exist. The document has 0 pages.")],
   [pdfinfo_event pdf]).
Proof.
  intros Hinfo Hkey Hn. rewrite render_document_page_run. cbv zeta.
  rewrite outcome_total_pages_of, Hinfo, Hkey. cbn [default].
  now assert ((n >? 0) = true) as -> by lia.
Qed.

Lemma missing_pages_key_is_zero_witness :
  render_document_page Site.world (Path "/site/nopages.pdf") 1 None =
  (inr [Text "Error: Page 1 does not exist. The document has 0 pages."],
   [Ev_pdfinfo_from_path "/site/nopages.pdf"]).
Proof.
  apply (missing_pages_key_is_zero Site.world (Path "/site/nopages.pdf") 1 None
           {[ "Title" := PyStr "Draft" ]}).
  - reflexivity.
  - reflexivity.
  - lia.
Defined.

(** X5.  A negative page number is not rejected by the range check: when it
    does not exceed the page count, the rasterizer is called once, with the
    negative number as both [first_page] and [last_page]. *)
Theorem negative_page_reaches_rasterizer (W : World) (pdf : source) (n total : Z)
    (md : option Z) :
  outcome (total_pages_of W pdf) = inr total ->
  n < 0 -> n <= total ->
  rasterizer_calls (trace (render_document_page W pdf n md)) = [page_range n n] /\
  page_range n n !! "first_page" = Some (PyInt n) /\
  page_range n n !! "last_page" = Some (PyInt n).
Proof.
  intros Htotal Hneg Hle. split; [|apply page_range_lookup].
  rewrite rasterizer_calls_document_page, Htotal.
  assert ((n >? total) = false) as -> by lia.
  now rewrite common_args_page_range by lia.
Qed.

Lemma negative_page_reaches_rasterizer_witness :
  rasterizer_calls
    (trace (render_document_page Sample.world (Path "/data/report.pdf") (-1) None)) =
    [page_range (-1) (-1)] /\
  page_range (-1) (-1) !! "first_page" = Some (PyInt (-1)) /\
  page_range (-1) (-1) !! "last_page" = Some (PyInt (-1)).
Proof.
  apply (negative_page_reaches_rasterizer Sample.world (Path "/data/report.pdf") (-1) 3 None).
  - reflexivity.
  - lia.
  - lia.
Defined.

(** ** The helpers of the pipeline *)

(** X6.  The keyword arguments built for the rasterizer always carry the
    output format; they carry [first_page] (resp. [last_page]) exactly when
    that argument is given and not zero, with the value given; and they hold
    no other key. *)
Theorem common_args_lookup (first last : option Z) (fmt : string) :
  let args := common_args first last fmt in
  args !! "fmt" = Some (PyStr fmt) /\
  args !! "first_page" = (if truthy first then PyInt <$> first else None) /\
  args !! "last_page" = (if truthy last then PyInt <$> last else None) /\
  (forall k, k <> "fmt" -> k <> "first_page" -> k <> "last_page" -> args !! k = None).
Proof.
  cbv zeta. unfold common_args.
  destruct first as [f|], last as [l|];
    try destruct (truthy (Some f)); try destruct (truthy (Some l));
    repeat split; intros; now simplify_map_eq.
Qed.

Lemma common_args_lookup_witness :
  common_args (Some 2) (Some 0) "png" !! "fmt" = Some (PyStr "png") /\
  common_args (Some 2) (Some 0) "png" !! "first_page" = Some (PyInt 2) /\
  common_args (Some 2) (Some 0) "png" !! "last_page" = None /\
  common_args (Some 2) (Some 0) "png" !! "dpi" = None.
Proof.
  destruct (common_args_lookup (Some 2) (Some 0) "png")
    as (Hfmt & Hfirst & Hlast & Hother).
  split; [exact Hfmt|]. split; [exact Hfirst|]. split; [exact Hlast|].
  apply Hother; discriminate.
Defined.

(** X7.  [convert_pdf_to_images] calls the rasterizer exactly once, returns
    its images untouched, and raises nothing but a [RuntimeError] whose
    message is "Failed to convert PDF to Image: " followed by the cause. *)
Theorem convert_pdf_to_images_wraps (W : World) (pdf : source)
    (first last : option Z) (fmt : string) :
  let args := common_args first last fmt in
  trace (convert_pdf_to_images W pdf first last fmt) = [rasterizer_event pdf args] /\
  (forall images,
     rasterizer W pdf args = inr images ->
     outcome (convert_pdf_to_images W pdf first last fmt) = inr images) /\
  (forall e,
     outcome (convert_pdf_to_images W pdf first last fmt) = inl e ->
     exists cause,
       rasterizer W pdf args = inl cause /\
       e = RuntimeError ("Failed to convert PDF to Image: " +:+ str_exn cause)).
Proof.
  cbv zeta. split; [apply trace_convert_pdf_to_images|].
  rewrite outcome_convert_pdf_to_images. split.
  - now intros images ->.
  - intros e He. destruct (rasterizer W pdf _) as [cause|images]; [|discriminate].
    exists cause. split; [reflexivity|]. congruence.
Qed.

Lemma convert_pdf_to_images_wraps_witness :
  outcome (convert_pdf_to_images Sample.world (Path "/data/report.pdf")
             (Some 2) (Some 3) "png") =
    inr [Sample.page 2 (2200, 1700); Sample.page 3 (1700, 2200)] /\
  exists cause,
    rasterizer Site.world (Path "/site/locked.pdf") (common_args None None "png") =
      inl cause /\
    RuntimeError "Failed to convert PDF to Image: Incorrect password" =
      RuntimeError ("Failed to convert PDF to Image: " +:+ str_exn cause).
Proof.
  split.
  - apply (convert_pdf_to_images_wraps Sample.world (Path "/data/report.pdf")
             (Some 2) (Some 3) "png"). reflexivity.
  - apply (convert_pdf_to_images_wraps Site.world (Path "/site/locked.pdf")
             None None "png"). reflexivity.
Defined.

(** X8.  [convert_html_to_pdf] does not swallow failures.  A missing
    typesetter module is raised as [ImportError] "weasyprint is required for
    PDF rendering." and the typesetter is not run; any other failure of the
    import, and any failure of the typesetter itself, is raised unchanged;
    otherwise the typesetter's bytes are returned. *)
Theorem convert_html_to_pdf_outcomes (W : World) (html : string) :
  convert_html_to_pdf W html =
  match import_weasyprint W with
  | inl (ImportError _) =>
      (inl (ImportError "weasyprint is required for PDF rendering."),
       [Ev_import_weasyprint])
  | inl e => (inl e, [Ev_import_weasyprint])
  | inr _ => (write_pdf W html, [Ev_import_weasyprint; Ev_write_pdf html])
  end.
Proof.
  unfold convert_html_to_pdf, try_except, bind, call, raise.
  destruct (import_weasyprint W) as [[]|[]]; reflexivity.
Qed.

(** X9.  A negative bound is not rejected by the resizer: for a bitmap whose
    sides are not negative it calls the library's thumbnail once, with the
    negative box [(d, d)], and returns or raises whatever that call does. *)
Theorem negative_bound_reaches_thumbnail (W : World) (im : bitmap) (d : Z) :
  d < 0 -> 0 <= fst (im_size im) -> 0 <= snd (im_size im) ->
  _resize_if_needed W im (Some d) =
  (PIL_thumbnail W im (d, d), [Ev_thumbnail im (d, d)]).
Proof.
  intros Hd Hw Hh. rewrite resize_exceeds by lia. reflexivity.
Qed.

Lemma negative_bound_reaches_thumbnail_witness :
  _resize_if_needed Site.world Site.sheet (Some (-5)) =
  (inl (OtherError "height and width must be > 0"),
   [Ev_thumbnail Site.sheet (-5, -5)]).
Proof.
  apply (negative_bound_reaches_thumbnail Site.world Site.sheet (-5)); simpl; lia.
Defined.

(** ** Resizing twice *)

(** X10.  When the resizer returns a bitmap for a bitmap of positive sides and
    a positive bound, and, where the library was called, that bitmap has one
    of the sizes Pillow's rule allows, the result is within the bound and no
    larger than the original on either side, and resizing it again with the
    same bound returns it unchanged without calling the library. *)
Theorem resize_twice (W : World) (im im' : bitmap) (d : Z) :
  let w := fst (im_size im) in
  let h := snd (im_size im) in
  0 < d -> 0 < w -> 0 < h ->
  outcome (_resize_if_needed W im (Some d)) = inr im' ->
  (d < Z.max w h -> In (im_size im') (Pillow.thumbnail_sizes (w, h) (d, d))) ->
  Z.max (fst (im_size im')) (snd (im_size im')) <= d /\
  fst (im_size im') <= w /\
  snd (im_size im') <= h /\
  _resize_if_needed W im' (Some d) = ret im'.
Proof.
  intros w h Hd Hw Hh Hout Hsize.
  assert (Z.max (fst (im_size im')) (snd (im_size im')) <= d /\
          fst (im_size im') <= w /\ snd (im_size im') <= h) as (Hfit' & Hlew & Hleh).
  { destruct (Z_le_gt_dec (Z.max w h) d) as [Hfit|Hbig].
    - rewrite (resize_fits W im d Hfit), outcome_ret in Hout.
      injection Hout as <-. fold w h. lia.
    - specialize (Hsize ltac:(lia)).
      destruct (im_size im') as [w' h']. cbn [fst snd].
      destruct (thumbnail_sizes_square w h d w' h' Hw Hh Hd ltac:(lia) Hsize)
        as (_ & _ & Hmax & _ & Hlew & Hleh).
      lia. }
  repeat split; try assumption. now apply resize_fits.
Qed.

Lemma resize_twice_witness :
  Z.max 100 67 <= 100 /\
  100 <= 1200 /\
  67 <= 800 /\
  _resize_if_needed Sample.world (Bitmap (100, 67) [Byte.x49]) (Some 100) =
    ret (Bitmap (100, 67) [Byte.x49]).
Proof.
  apply (resize_twice Sample.world Sample.photo (Bitmap (100, 67) [Byte.x49]) 100).
  - lia.
  - simpl. lia.
  - simpl. lia.
  - reflexivity.
  - intros _. simpl. right. left. reflexivity.
Defined.

(** ** Image rendering *)

(** X11.  [render_image] never raises and always returns exactly one item:
    either the text "Error rendering image: {cause}", in which case that same
    message is the one thing logged, or an image artifact tagged with the
    chosen encoding in lower case, in which case nothing is logged. *)
Theorem render_image_outcomes (W : World) (input : source) (mime : string)
    (md : option Z) :
  let r := render_image W input mime md in
  exists item,
    outcome r = inr [item] /\
    ((exists e, item = Text ("Error rendering image: " +:+ str_exn e) /\
                logged (trace r) = ["Error rendering image: " +:+ str_exn e]) \/
     (exists data, item = ImageContent data (str_lower W (image_format W input mime)) /\
                   logged (trace r) = [])).
Proof.
  cbv zeta.
  destruct (render_image_cases W input mime md)
    as [(e & Hout & Hlog)|(data & Hout & Hlog)]; eexists; (split; [exact Hout|]).
  - left. now exists e.
  - right. now exists data.
Qed.

(** X12.  The MIME hint plays no part for a path input: any two hints give
    the same run.  For a byte buffer, a hint without "/" gives the run of the
    hint "image/png": the image is encoded as PNG. *)
Theorem mime_hint_use (W : World) (md : option Z) :
  (forall p mime mime',
     render_image W (Path p) mime md = render_image W (Path p) mime' md) /\
  (forall b mime,
     Str.contains "/" mime = false ->
     render_image W (Bytes b) mime md = render_image W (Bytes b) "image/png" md /\
     image_format W (Bytes b) mime = "PNG").
Proof.
  split; [reflexivity|].
  intros b mime Hslash.
  assert (image_format W (Bytes b) mime = "PNG") as Hfmt.
  { unfold image_format. simpl. now rewrite Hslash. }
  split; [|exact Hfmt]. unfold render_image. now rewrite Hfmt.
Qed.

Lemma mime_hint_use_witness :
  render_image Sample.world (Bytes []) "png" (Some 100) =
    render_image Sample.world (Bytes []) "image/png" (Some 100) /\
  image_format Sample.world (Bytes []) "png" = "PNG".
Proof.
  apply (mime_hint_use Sample.world (Some 100)). reflexivity.
Defined.

Lemma upper_lower_upper_ascii (c : ascii) :
  Str.upper_ascii (Str.lower_ascii (Str.upper_ascii c)) = Str.upper_ascii c.
Proof. destruct c as [[] [] [] [] [] [] [] []]; reflexivity. Qed.

Lemma upper_lower_upper (s : string) :
  Str.ascii_upper (Str.ascii_lower (Str.ascii_upper s)) = Str.ascii_upper s.
Proof.
  unfold Str.ascii_lower, Str.ascii_upper.
  induction s as [|c s IH]; simpl; [reflexivity|].
  now rewrite upper_lower_upper_ascii, IH.
Qed.

Lemma split_is_ascii (c : ascii) (s : string) :
  Str.is_ascii s = true ->
  List.Forall (fun field => Str.is_ascii field = true) (Str.split c s).
Proof.
  induction s as [|a s IH]; intros Hs.
  - repeat constructor.
  - cbn [Str.is_ascii] in Hs. apply andb_true_iff in Hs as [Ha Hs].
    specialize (IH Hs). cbn [Str.split].
    destruct (Ascii.eqb a c); [now constructor|].
    destruct (Str.split c s) as [|w ws].
    + constructor; [|constructor]. cbn [Str.is_ascii]. now rewrite Ha.
    + inversion IH as [|? ? Hw Hws]; subst. constructor; [|exact Hws].
      cbn [Str.is_ascii]. now rewrite Ha, Hw.
Qed.

Lemma last_field_is_ascii (c : ascii) (s : string) :
  Str.is_ascii s = true ->
  Str.is_ascii (Str.last_field (Str.split c s)) = true.
Proof.
  intros Hs. pose proof (split_is_ascii c s Hs) as Hall.
  unfold Str.last_field.
  induction (Str.split c s) as [|w ws IH]; [reflexivity|].
  inversion Hall as [|? ? Hw Hws]; subst.
  destruct ws as [|w' ws']; [exact Hw|]. now apply IH.
Qed.

(** The chosen encoding is never the alias. *)
Lemma image_format_not_JPG (W : World) (input : source) (mime : string) :
  image_format W input mime <> "JPG".
Proof.
  unfold image_format.
  destruct (negb (is_str input) && Str.contains "/" mime); [|discriminate].
  destruct (String.eqb (str_upper W _) "JPG") eqn:Halias; [discriminate|].
  now apply String.eqb_neq in Halias.
Qed.

(** For an ASCII hint the tag is never the alias in lower case either. *)
Lemma image_format_not_jpg (W : World) (input : source) (mime : string) :
  Str.is_ascii mime = true ->
  str_lower W (image_format W input mime) <> "jpg".
Proof.
  intros Hascii. unfold image_format.
  destruct (negb (is_str input) && Str.contains "/" mime); [|discriminate].
  pose proof (last_field_is_ascii "/" mime Hascii) as Hsub.
  set (sub := Str.last_field (Str.split "/" mime)) in *.
  rewrite (str_upper_ascii W sub Hsub).
  destruct (String.eqb (Str.ascii_upper sub) "JPG") eqn:Halias; [discriminate|].
  apply String.eqb_neq in Halias.
  rewrite str_lower_ascii by now rewrite is_ascii_upper.
  intros Hlow. apply Halias.
  rewrite <- (upper_lower_upper sub), Hlow. reflexivity.
Qed.

Lemma save_events_render_image (W : World) (input : source) (mime : string)
    (md : option Z) (im : bitmap) (fmt : string) :
  Ev_save im fmt ∈ trace (render_image W input mime md) ->
  fmt = image_format W input mime.
Proof.
  unfold render_image, _resize_if_needed, log_error. intros Hin.
  crunch; apply list_elem_of_In in Hin; simpl in Hin; intuition congruence.
Qed.

(** X13.  The alias is always canonicalised.  No run of [render_image],
    successful or not, asks the codec for the encoding "JPG", whatever the
    input and the hint; and with a hint made of ASCII characters a successful
    [render_image] never tags its artifact "jpg". *)
Theorem never_tagged_jpg (W : World) (input : source) (mime : string)
    (md : option Z) :
  (forall im, Ev_save im "JPG" ∉ trace (render_image W input mime md)) /\
  (Str.is_ascii mime = true ->
   forall data tag,
     outcome (render_image W input mime md) = inr [ImageContent data tag] ->
     tag <> "jpg").
Proof.
  split.
  - intros im Hin. apply save_events_render_image in Hin.
    now apply (image_format_not_JPG W input mime).
  - intros Hascii data tag Hok.
    apply render_image_success in Hok as (-> & _).
    now apply image_format_not_jpg.
Qed.

Lemma never_tagged_jpg_witness :
  (forall im,
     Ev_save im "JPG" ∉
       trace (render_image Sample.world (Bytes []) "image/JPG" (Some 100))) /\
  "jpeg" <> "jpg".
Proof.
  destruct (never_tagged_jpg Sample.world (Bytes []) "image/JPG" (Some 100))
    as [Hsave Htag].
  split; [exact Hsave|].
  apply (Htag ltac:(reflexivity) [Byte.xff; Byte.x49] "jpeg").
  reflexivity.
Defined.

(** ** The dispatcher *)

Section Dispatch.

Variable W : World.

Lemma try_except_returns {A : Type} (m : M A) (h : exn -> M A) (a : A) :
  outcome m = inr a -> try_except m h = (outcome m, trace m).
Proof.
  destruct m as [[e|a'] t]; unfold outcome, trace; simpl; [discriminate|].
  reflexivity.
Qed.

Lemma bind_call_pure {A B : Type} (ev : event) (a : A) (f : A -> M B) :
  bind (call ev (inr a)) f = (outcome (f a), ev :: trace (f a)).
Proof. unfold bind, call. now destruct (f a). Qed.

(** The whole run of the entry point, by the branch taken. *)
Lemma get_local_file_visual_run (path : string) (n : Z) (md : option Z) :
  get_local_file_visual W path n md =
  let after (t : list event) (m : M (list content)) : M (list content) :=
    (outcome m, t ++ trace m) in
  if negb (os_path_exists W path) then
    (inr [Text ("Error: File not found at " +:+ path)], [Ev_exists path])
  else if negb (os_path_isfile W path) then
    (inr [Text ("Error: Path is not a file: " +:+ path)],
     [Ev_exists path; Ev_isfile path])
  else
    let t0 := [Ev_exists path; Ev_isfile path; Ev_guess_type path] in
    match guessed_mime W path with
    | inl e => (inl e, t0)
    | inr mime =>
        if Str.startswith mime "image/" then
          after t0 (render_image W (Path path) "image/png" md)
        else if String.eqb mime "application/pdf" then
          after t0 (render_document_page W (Path path) n md)
        else if String.eqb mime "text/html" then
          match read_text W path with
          | inl e =>
              (inr [Text ("Error rendering HTML file: " +:+ str_exn e)],
               t0 ++ [Ev_read_text path])
          | inr html =>
              let t1 := t0 ++ Ev_read_text path :: trace (convert_html_to_pdf W html) in
              match outcome (convert_html_to_pdf W html) with
              | inl e => (inr [Text ("Error rendering HTML file: " +:+ str_exn e)], t1)
              | inr pdf_bytes =>
                  after t1 (render_document_page W (Bytes pdf_bytes) n md)
              end
          end
        else
          (inr [Text ("Error: Unsupported file type '" +:+ mime
                      +:+ "'. Only PDF, Images, and HTML are supported for visual inspection.")],
           t0)
    end.
Proof.
  cbv zeta. unfold get_local_file_visual.
  rewrite bind_call_pure.
  destruct (os_path_exists W path); cbn [negb]; [|reflexivity].
  rewrite bind_call_pure.
  destruct (os_path_isfile W path); cbn [negb]; [|reflexivity].
  destruct (guessed_mime W path) as [e|mime]; [reflexivity|].
  rewrite bind_call_pure.
  destruct (Str.startswith mime "image/").
  { destruct (render_image_shape W (Path path) "image/png" md) as (r & Hr & _).
    rewrite (try_except_returns _ _ r Hr). reflexivity. }
  destruct (String.eqb mime "application/pdf").
  { destruct (render_document_page_shape W (Path path) n md) as (r & Hr & _).
    rewrite (try_except_returns _ _ r Hr). reflexivity. }
  destruct (String.eqb mime "text/html"); [|reflexivity].
  run_simpl.
  destruct (read_text W path) as [e|html]; run_simpl; [reflexivity|].
  destruct (outcome (convert_html_to_pdf W html)) as [e|pdf_bytes]; run_simpl.
  { f_equal. cbn [app]. now rewrite !app_nil_r. }
  destruct (render_document_page_shape W (Bytes pdf_bytes) n md) as (r & Hr & _).
  rewrite Hr. f_equal. cbn [app]. now rewrite !app_nil_r.
Qed.

End Dispatch.

Lemma convert_html_to_pdf_run_import_error (W : World) (html msg : string) :
  import_weasyprint W = inl (ImportError msg) ->
  convert_html_to_pdf W html =
  (inl (ImportError "weasyprint is required for PDF rendering."),
   [Ev_import_weasyprint]).
Proof.
  intros Himp. unfold convert_html_to_pdf, try_except, bind, call, raise.
  now rewrite Himp.
Qed.

Lemma convert_html_to_pdf_run_typeset (W : World) (html : string) :
  import_weasyprint W = inr tt ->
  convert_html_to_pdf W html =
  (write_pdf W html, [Ev_import_weasyprint; Ev_write_pdf html]).
Proof.
  intros Himp. unfold convert_html_to_pdf, try_except, bind, call, raise.
  now rewrite Himp.
Qed.

(** X14.  Every image artifact the entry point returns is tagged "png",
    whatever the type of the file: an image file of any format, a PDF and an
    HTML page all come back as PNG. *)
Theorem entry_point_artifacts_are_png (W : World) (path : string) (n : Z)
    (md : option Z) (data : bytes) (tag : string) (rest : list content) :
  outcome (get_local_file_visual W path n md) = inr (ImageContent data tag :: rest) ->
  tag = "png".
Proof.
  rewrite get_local_file_visual_run. cbv zeta.
  assert (forall pdf, outcome (render_document_page W pdf n md) =
                        inr (ImageContent data tag :: rest) -> tag = "png") as Hdoc.
  { intros pdf Hout.
    destruct (render_document_page_shape W pdf n md)
      as (r & Hr & [(s & -> & _)|(d & st & -> & _)]); congruence. }
  destruct (negb (os_path_exists W path)); [discriminate|].
  destruct (negb (os_path_isfile W path)); [discriminate|].
  destruct (guessed_mime W path) as [e|mime]; [discriminate|].
  destruct (Str.startswith _ _).
  { rewrite outcome_pair. intros Hout.
    destruct (render_image_cases W (Path path) "image/png" md)
      as [(e & He & _)|(d & Hd & _)]; [congruence|].
    rewrite Hd in Hout. now inversion Hout. }
  destruct (String.eqb _ "application/pdf").
  { rewrite outcome_pair. apply Hdoc. }
  destruct (String.eqb _ "text/html"); [|discriminate].
  destruct (read_text W path) as [e|html]; [discriminate|].
  destruct (outcome (convert_html_to_pdf W html)) as [e|pdf_bytes]; [discriminate|].
  rewrite outcome_pair. apply Hdoc.
Qed.

Lemma entry_point_artifacts_are_png_witness :
  guessed_mime Sample.world "/data/photo.jpg" = inr "image/jpeg" /\
  outcome (get_local_file_visual Sample.world "/data/photo.jpg" 1 (Some 100)) =
    inr [ImageContent [Byte.x89; Byte.x49] "png"] /\
  "png" = "png".
Proof.
  split; [reflexivity|]. split; [reflexivity|].
  apply (entry_point_artifacts_are_png Sample.world "/data/photo.jpg" 1 (Some 100)
           [Byte.x89; Byte.x49] "png" []).
  reflexivity.
Defined.

(** X15.  For an existing regular file guessed as "text/html": when reading
    it fails, the result is the single text "Error rendering HTML file:
    {cause}" and the typesetter is not touched; when the typesetter module is
    missing, the text carries "weasyprint is required for PDF rendering." and
    the typesetter is not run; when the typesetter fails, the text carries its
    cause.  In all three cases no PDF tool is called and nothing is logged. *)
Theorem html_lowering_failures (W : World) (path : string) (n : Z) (md : option Z) :
  os_path_exists W path = true -> os_path_isfile W path = true ->
  guessed_mime W path = inr "text/html" ->
  let t0 := [Ev_exists path; Ev_isfile path; Ev_guess_type path] in
  (forall e,
     read_text W path = inl e ->
     get_local_file_visual W path n md =
     (inr [Text ("Error rendering HTML file: " +:+ str_exn e)],
      t0 ++ [Ev_read_text path])) /\
  (forall html msg,
     read_text W path = inr html ->
     import_weasyprint W = inl (ImportError msg) ->
     get_local_file_visual W path n md =
     (inr [Text "Error rendering HTML file: weasyprint is required for PDF rendering."],
      t0 ++ [Ev_read_text path; Ev_import_weasyprint])) /\
  (forall html e,
     read_text W path = inr html ->
     import_weasyprint W = inr tt ->
     write_pdf W html = inl e ->
     get_local_file_visual W path n md =
     (inr [Text ("Error rendering HTML file: " +:+ str_exn e)],
      t0 ++ [Ev_read_text path; Ev_import_weasyprint; Ev_write_pdf html])).
Proof.
  intros Hex Hfile Hmime t0. subst t0.
  rewrite get_local_file_visual_run. cbv zeta.
  rewrite Hex, Hfile, Hmime. cbn [negb]. simpl.
  split; [|split].
  - now intros e ->.
  - intros html msg -> Himp.
    now rewrite convert_html_to_pdf_run_import_error with (msg := msg).
  - intros html e -> Himp Hwrite.
    now rewrite (convert_html_to_pdf_run_typeset W html Himp), Hwrite.
Qed.

Lemma html_lowering_failures_witness :
  get_local_file_visual Site.world "/site/broken.html" 1 None =
    (inr [Text "Error rendering HTML file: 'utf-8' codec can't decode byte 0xff in position 0"],
     [Ev_exists "/site/broken.html"; Ev_isfile "/site/broken.html";
      Ev_guess_type "/site/broken.html"; Ev_read_text "/site/broken.html"]) /\
  get_local_file_visual Sample.world "/data/page.html" 1 None =
    (inr [Text "Error rendering HTML file: weasyprint is required for PDF rendering."],
     [Ev_exists "/data/page.html"; Ev_isfile "/data/page.html";
      Ev_guess_type "/data/page.html"; Ev_read_text "/data/page.html";
      Ev_import_weasyprint]) /\
  get_local_file_visual Site.world "/site/draft.html" 1 None =
    (inr [Text "Error rendering HTML file: typesetting failed"],
     [Ev_exists "/site/draft.html"; Ev_isfile "/site/draft.html";
      Ev_guess_type "/site/draft.html"; Ev_read_text "/site/draft.html";
      Ev_import_weasyprint; Ev_write_pdf "<p>"]).
Proof.
  split; [|split].
  - destruct (html_lowering_failures Site.world "/site/broken.html" 1 None
                ltac:(reflexivity) ltac:(reflexivity) ltac:(reflexivity))
      as (Hread & _ & _).
    apply (Hread (OtherError "'utf-8' codec can't decode byte 0xff in position 0")).
    reflexivity.
  - destruct (html_lowering_failures Sample.world "/data/page.html" 1 None
                ltac:(reflexivity) ltac:(reflexivity) ltac:(reflexivity))
      as (_ & Himport & _).
    apply (Himport "<html><body>Hello</body></html>" "No module named 'weasyprint'");
      reflexivity.
  - destruct (html_lowering_failures Site.world "/site/draft.html" 1 None
                ltac:(reflexivity) ltac:(reflexivity) ltac:(reflexivity))
      as (_ & _ & Htypeset).
    apply (Htypeset "<p>" (OtherError "typesetting failed")); reflexivity.
Defined.

(** X16.  Document-like files share one pipeline.  For an existing regular
    file guessed as "application/pdf", the entry point is the three file
    checks followed by the run of [render_document_page] on the path.  For
    one guessed as "text/html" that is read and typeset into [pdf_bytes], the
    result is that of [render_document_page] on [pdf_bytes], with the same
    page number and bound. *)
Theorem documents_share_one_pipeline (W : World) (path : string) (n : Z)
    (md : option Z) :
  os_path_exists W path = true -> os_path_isfile W path = true ->
  let t0 := [Ev_exists path; Ev_isfile path; Ev_guess_type path] in
  (guessed_mime W path = inr "application/pdf" ->
   get_local_file_visual W path n md =
   (outcome (render_document_page W (Path path) n md),
    t0 ++ trace (render_document_page W (Path path) n md))) /\
  (guessed_mime W path = inr "text/html" ->
   forall html pdf_bytes,
     read_text W path = inr html ->
     outcome (convert_html_to_pdf W html) = inr pdf_bytes ->
     get_local_file_visual W path n md =
     (outcome (render_document_page W (Bytes pdf_bytes) n md),
      t0 ++ Ev_read_text path :: trace (convert_html_to_pdf W html)
         ++ trace (render_document_page W (Bytes pdf_bytes) n md))).
Proof.
  intros Hex Hfile t0. subst t0. split.
  - intros Hmime. rewrite get_local_file_visual_run. cbv zeta.
    now rewrite Hex, Hfile, Hmime.
  - intros Hmime html pdf_bytes Hread Hconv.
    rewrite get_local_file_visual_run. cbv zeta.
    now rewrite Hex, Hfile, Hmime, Hread, Hconv.
Qed.

Lemma documents_share_one_pipeline_witness :
  get_local_file_visual Sample.world "/data/report.pdf" 2 (Some 1000) =
    (outcome (render_document_page Sample.world (Path "/data/report.pdf") 2 (Some 1000)),
     [Ev_exists "/data/report.pdf"; Ev_isfile "/data/report.pdf";
      Ev_guess_type "/data/report.pdf"]
     ++ trace (render_document_page Sample.world (Path "/data/report.pdf") 2 (Some 1000))) /\
  get_local_file_visual Site.world "/site/index.html" 1 None =
    (outcome (render_document_page Site.world (Bytes Site.home_pdf) 1 None),
     [Ev_exists "/site/index.html"; Ev_isfile "/site/index.html";
      Ev_guess_type "/site/index.html"]
     ++ Ev_read_text "/site/index.html" :: trace (convert_html_to_pdf Site.world Site.home)
     ++ trace (render_document_page Site.world (Bytes Site.home_pdf) 1 None)).
Proof.
  split.
  - destruct (documents_share_one_pipeline Sample.world "/data/report.pdf" 2 (Some 1000)
                ltac:(reflexivity) ltac:(reflexivity)) as [Hpdf _].
    apply Hpdf. reflexivity.
  - destruct (documents_share_one_pipeline Site.world "/site/index.html" 1 None
                ltac:(reflexivity) ltac:(reflexivity)) as [_ Hhtml].
    apply (Hhtml ltac:(reflexivity) Site.home Site.home_pdf); reflexivity.
Defined.

(** X17.  For a file guessed as an image type the page number is ignored: any
    two page numbers give the same run of the entry point. *)
Theorem page_number_ignored_for_images (W : World) (path : string) (n n' : Z)
    (md : option Z) (mime : string) :
  guessed_mime W path = inr mime ->
  is_image_mime mime = true ->
  get_local_file_visual W path n md = get_local_file_visual W path n' md.
Proof.
  intros Hguess Himg. rewrite !get_local_file_visual_run. cbv zeta.
  unfold is_image_mime in Himg. now rewrite Hguess, Himg.
Qed.

Lemma page_number_ignored_for_images_witness :
  get_local_file_visual Sample.world "/data/photo.jpg" 1 (Some 100) =
  get_local_file_visual Sample.world "/data/photo.jpg" 7 (Some 100).
Proof.
  apply (page_number_ignored_for_images Sample.world "/data/photo.jpg" 1 7 (Some 100)
           "image/jpeg"); reflexivity.
Defined.

(** X18.  An existing regular file whose type cannot be guessed is treated as
    "application/octet-stream" and refused with the text that names that
    type; no renderer is called. *)
Theorem unknown_type_is_octet_stream (W : World) (path : string) (n : Z)
    (md : option Z) :
  os_path_exists W path = true -> os_path_isfile W path = true ->
  mimetypes_guess_type W path = inr None \/
  mimetypes_guess_type W path = inr (Some "") ->
  get_local_file_visual W path n md =
  (inr [Text "Error: Unsupported file type 'application/octet-stream'. Only PDF, Images, and HTML are supported for visual inspection."],
   [Ev_exists path; Ev_isfile path; Ev_guess_type path]).
Proof.
  intros Hex Hfile Hguess.
  assert (guessed_mime W path = inr "application/octet-stream") as Hmime.
  { unfold guessed_mime. now destruct Hguess as [-> | ->]. }
  rewrite get_local_file_visual_run. cbv zeta.
  now rewrite Hex, Hfile, Hmime.
Qed.

Lemma unknown_type_is_octet_stream_witness :
  get_local_file_visual Site.world "/site/README" 1 None =
  (inr [Text "Error: Unsupported file type 'application/octet-stream'. Only PDF, Images, and HTML are supported for visual inspection."],
   [Ev_exists "/site/README"; Ev_isfile "/site/README"; Ev_guess_type "/site/README"]).
Proof.
  apply (unknown_type_is_octet_stream Site.world "/site/README" 1 None).
  - reflexivity.
  - reflexivity.
  - left. reflexivity.
Defined.

(** ** What the dispatcher never does *)

Section Never.

Variable W : World.

Lemma prefix_weaken (a b s : string) :
  String.prefix (a +:+ b) s = true -> String.prefix a s = true.
Proof.
  revert s. induction a as [|c a IH]; intros s Hp; [apply prefix_nil|].
  destruct s as [|c' s]; simpl in *; [discriminate|].
  destruct (ascii_dec c c'); [now apply IH|discriminate].
Qed.

Lemma forallb_trace_resize (f : event -> bool) (im : bitmap) (md : option Z) :
  (forall im' size, f (Ev_thumbnail im' size) = true) ->
  forallb f (trace (_resize_if_needed W im md)) = true.
Proof.
  intros Hf. unfold _resize_if_needed. crunch; try reflexivity.
  cbn [forallb]. now rewrite Hf.
Qed.

(** What [render_document_page] logs and which texts it returns. *)
Lemma render_document_page_report (pdf : source) (n : Z) (md : option Z) :
  (logged (trace (render_document_page W pdf n md)) = [] \/
   exists e, logged (trace (render_document_page W pdf n md)) =
             ["Error rendering document page: " +:+ str_exn e]) /\
  (forall s,
     outcome (render_document_page W pdf n md) = inr [Text s] ->
     String.prefix "Error: " s = true \/
     String.prefix "Error rendering document: " s = true).
Proof.
  rewrite render_document_page_run. cbv zeta.
  assert (forall k, logged [pdfinfo_event pdf; rasterizer_event pdf k] = [])
    as Hhead by (intros k; now destruct pdf).
  assert (logged [pdfinfo_event pdf] = []) as Hinfo by now destruct pdf.
  destruct (outcome (total_pages_of W pdf)) as [e|total].
  { rewrite trace_pair, outcome_pair, logged_app, Hinfo. split; [right; now exists e|].
    intros s [= <-]. right. apply prefix_app. }
  destruct (n >? total).
  { rewrite trace_pair, outcome_pair, Hinfo. split; [now left|].
    intros s [= <-]. now left. }
  destruct (rasterizer W pdf _) as [e|[|image0 rest]].
  - rewrite trace_pair, outcome_pair, logged_app, Hhead.
    split; [right; now eexists|]. intros s [= <-]. right. apply prefix_app.
  - rewrite trace_pair, outcome_pair, Hhead. split; [now left|].
    intros s [= <-]. now left.
  - pose proof (logged_resize W image0 md) as Hlog.
    destruct (outcome (_resize_if_needed W image0 md)) as [e|image].
    { rewrite trace_pair, outcome_pair, !logged_app, Hhead, Hlog.
      split; [right; now exists e|]. intros s [= <-]. right. apply prefix_app. }
    destruct (PIL_save W image "PNG") as [e|data];
      rewrite trace_pair, outcome_pair, !logged_app, Hhead, Hlog.
    + split; [right; now exists e|]. intros s [= <-]. right. apply prefix_app.
    + split; [now left|]. intros s [=].
Qed.

Lemma logged_convert_html_to_pdf (html : string) :
  logged (trace (convert_html_to_pdf W html)) = [].
Proof.
  unfold convert_html_to_pdf, try_except, bind, call, raise.
  destruct (import_weasyprint W) as [[]|[]]; reflexivity.
Qed.

End Never.

(** X19.  The dispatcher's own handler never fires.  Whatever the world and
    the input, every message logged during a call comes from a renderer (it
    begins with "Error rendering"), and a single-text result begins with
    "Error: " or "Error rendering ": the message "Error reading local file"
    is never logged and the text "Error reading file" is never returned.
    Nothing is said here of a call that raises. *)
Theorem dispatcher_handler_never_fires (W : World) (path : string) (n : Z)
    (md : option Z) :
  let r := get_local_file_visual W path n md in
  forallb (String.prefix "Error rendering") (logged (trace r)) = true /\
  match outcome r with
  | inr [Text s] => String.prefix "Error: " s || String.prefix "Error rendering " s
  | inr _ => true
  | inl _ => true
  end = true.
Proof.
  cbv zeta. rewrite get_local_file_visual_run. cbv zeta.
  assert (forall pdf t, logged t = [] ->
            forallb (String.prefix "Error rendering")
              (logged (t ++ trace (render_document_page W pdf n md))) = true /\
            match outcome (render_document_page W pdf n md) with
            | inr [Text s] =>
                String.prefix "Error: " s || String.prefix "Error rendering " s
            | inr _ => true
            | inl _ => true
            end = true) as Hdoc.
  { intros pdf t Ht. rewrite logged_app, Ht.
    destruct (render_document_page_report W pdf n md) as [Hlog Htext]. split.
    - destruct Hlog as [-> | (e & ->)]; reflexivity.
    - destruct (render_document_page_shape W pdf n md)
        as (r & Hr & [(s & -> & _)|(d & st & -> & _)]); rewrite Hr; [|reflexivity].
      destruct (Htext s Hr) as [Hp|Hp].
      + now rewrite Hp.
      + apply (prefix_weaken "Error rendering " "document: ") in Hp.
        rewrite Hp. apply orb_true_r. }
  destruct (negb (os_path_exists W path)); [split; reflexivity|].
  destruct (negb (os_path_isfile W path)); [split; reflexivity|].
  destruct (guessed_mime W path) as [e|mime]; [split; reflexivity|].
  destruct (Str.startswith _ _).
  { rewrite trace_pair, outcome_pair, logged_app.
    destruct (render_image_cases W (Path path) "image/png" md)
      as [(e & -> & ->)|(d & -> & ->)]; split; reflexivity. }
  destruct (String.eqb _ "application/pdf").
  { rewrite trace_pair, outcome_pair. now apply Hdoc. }
  destruct (String.eqb _ "text/html"); [|split; reflexivity].
  destruct (read_text W path) as [e|html]; [split; reflexivity|].
  pose proof (logged_convert_html_to_pdf W html) as Hconv.
  assert (logged ([Ev_exists path; Ev_isfile path; Ev_guess_type path]
                  ++ Ev_read_text path :: trace (convert_html_to_pdf W html)) = [])
    as Hprefix.
  { change (Ev_read_text path :: trace (convert_html_to_pdf W html))
      with ([Ev_read_text path] ++ trace (convert_html_to_pdf W html)).
    now rewrite !logged_app, Hconv. }
  destruct (outcome (convert_html_to_pdf W html)) as [e|pdf_bytes].
  - rewrite trace_pair, outcome_pair, Hprefix. split; reflexivity.
  - rewrite trace_pair, outcome_pair. now apply Hdoc.
Qed.

(** X20.  The page pipeline keeps to the kind of handle it was given: for a
    path it never calls a PDF tool that takes a byte buffer, and for a byte
    buffer it never calls one that takes a path. *)
Theorem handle_kind_is_respected (W : World) (n : Z) (md : option Z) :
  (forall p,
     forallb (fun e => negb (is_from_bytes_call e))
             (trace (render_document_page W (Path p) n md)) = true) /\
  (forall b,
     forallb (fun e => negb (is_from_path_call e))
             (trace (render_document_page W (Bytes b) n md)) = true).
Proof.
  split; intros x; rewrite render_document_page_run; cbv zeta;
    repeat match goal with
           | |- context [match ?c with _ => _ end] => split_scrutinee c
           | |- context [if ?c then _ else _] => split_scrutinee c
           end;
    rewrite trace_pair, ?forallb_app, ?forallb_trace_resize by reflexivity;
    reflexivity.
Qed.
